(** * pytello: the drone session manager of droneapp/models/drone_manager.py

    A shallow embedding of [DroneManager]: the command channel
    ([send_command], [_send_command]), the patrol controller ([patrol],
    [_patrol], [stop_patrol]), the frame producer
    ([video_binary_generator]), the face tracker ([video_jpeg_generator]),
    the snapshot request ([snapshot]) and the shutdown ([stop]).

    The attributes of the one [DroneManager] object are the fields of the
    record [Drone].  A method is a function from the object to a [Run]: how
    the call ended, the object afterwards and the number of [time.sleep]
    calls it made.  What the other threads do to the object while a method
    sleeps is an explicit argument, [Env]. *)

From Stdlib Require Import ZArith List String Ascii Bool Lia QArith Qround DecimalString.
From Stdlib Require Import Strings.Byte Lqa Floats.
Import ListNotations.

Local Open Scope Z_scope.
Local Open Scope string_scope.

(** ** Python values the code relies on *)

(** The exceptions that the modelled statements can raise. *)
Inductive PyExc : Type :=
| AttributeError        (* attribute of None, or a missing method *)
| ValueError            (* numpy reshape of a buffer of the wrong size;
                           round of a NaN *)
| OSError               (* sendto on a closed socket *)
| OverflowError         (* round of an infinite float *)
| UnicodeDecodeError    (* bytes.decode('utf-8') on invalid bytes *)
| ErrorNoFaceDetectXMLFile
| ErrorNoImageDir
| ContextManagerError.  (* [with] on an object without __enter__:
                           AttributeError up to Python 3.10, TypeError after *)

(** How a call ends: it returns a value, raises, or is parked on a blocking
    [Semaphore.acquire] whose permit is taken. *)
Inductive Outcome (A : Type) : Type :=
| Returned (v : A)
| Raised (e : PyExc)
| Waiting.
Arguments Returned {A} v.
Arguments Raised {A} e.
Arguments Waiting {A}.

Inductive Level : Type := INFO | WARNING | ERROR.

(** A log record: level, the 'action' entry of the logged dict, and the rest
    of the dict rendered as text. *)
Definition LogEntry : Type := (Level * string * string)%type.

(** A started [threading.Thread]: its target and arguments. *)
Inductive Thread : Type :=
| T_send_command (command : string) (blocking : bool)
| T_patrol
| T_receive_response
| T_receive_video.

(** The operand of a [with] statement: [contextlib.ExitStack()] is an
    instance, [contextlib.ExitStack] is the class itself. *)
Inductive ContextExpr : Type :=
| ExitStack_instance
| ExitStack_class.

(** [type(obj).__enter__] exists for an instance of ExitStack; the class
    object has type [type], which has no [__enter__]. *)
Definition supports_with (c : ContextExpr) : bool :=
  match c with
  | ExitStack_instance => true
  | ExitStack_class => false
  end.

(** ** Module constants *)

Set Warnings "-inexact-float".
Definition DEFAULT_DISTANCE : float := 0.30%float.
Set Warnings "+inexact-float".
Definition DEFAULT_SPEED : Z := 10.
Definition DEFAULT_DEGREE : Z := 10.

Definition FRAME_X : Z := 960 / 3.
Definition FRAME_Y : Z := 720 / 3.
Definition FRAME_AREA : Z := FRAME_X * FRAME_Y.
Definition FRAME_SIZE : Z := FRAME_AREA * 3.
Definition FRAME_CENTER_X : Q := (inject_Z FRAME_X / 2)%Q.
Definition FRAME_CENTER_Y : Q := (inject_Z FRAME_Y / 2)%Q.

Definition SNAPSHOT_IMAGE_FOLDER : string := "./droneapp/static/img/snapshots/".

(** ** The session object *)

(** Text is kept as its UTF-8 byte sequence, so a datagram and a command are
    both [string]s.  A raw frame and a JPEG image are byte lists. *)
Definition Frame : Type := list byte.
Definition Jpeg : Type := list byte.

Record Drone : Type := mkDrone {
  speed : Z;
  sock_open : bool;                 (* self.socket, until socket.close() *)
  wire : list string;               (* datagrams sent to drone_address, oldest first *)
  response : option string;         (* self.response; None is Python's None *)
  stop_event : bool;                (* self.stop_event, a threading.Event *)
  listener_alive : bool;            (* self._response_thread_from_drone.is_alive() *)
  patrol_alive : bool;              (* whether the thread of self._thread_patrol still runs *)
  patrol_event : option bool;       (* self.patrol_event: None, or an Event and its flag *)
  is_patrol : bool;
  patrol_semaphore : nat;           (* value of self._patrol_semaphore *)
  thread_patrol : option Thread;    (* self._thread_patrol *)
  is_enable_face_detect : bool;
  is_snapshot : bool;
  command_semaphore : nat;          (* value of self._command_semaphore *)
  command_thread : option Thread;   (* self._command_thread *)
  threads : list Thread;            (* every thread started so far, oldest first *)
  log : list LogEntry;              (* oldest first *)
  files : list (string * Jpeg);     (* files written, oldest first *)
  signals : list string             (* signals sent to the decoder process *)
}.

Definition set_response (v : option string) (d : Drone) : Drone :=
  mkDrone (speed d) (sock_open d) (wire d) v (stop_event d) (listener_alive d) (patrol_alive d)
    (patrol_event d) (is_patrol d) (patrol_semaphore d) (thread_patrol d)
    (is_enable_face_detect d) (is_snapshot d) (command_semaphore d)
    (command_thread d) (threads d) (log d) (files d) (signals d).

Definition set_wire (v : list string) (d : Drone) : Drone :=
  mkDrone (speed d) (sock_open d) v (response d) (stop_event d) (listener_alive d) (patrol_alive d)
    (patrol_event d) (is_patrol d) (patrol_semaphore d) (thread_patrol d)
    (is_enable_face_detect d) (is_snapshot d) (command_semaphore d)
    (command_thread d) (threads d) (log d) (files d) (signals d).

Definition set_sock_open (v : bool) (d : Drone) : Drone :=
  mkDrone (speed d) v (wire d) (response d) (stop_event d) (listener_alive d) (patrol_alive d)
    (patrol_event d) (is_patrol d) (patrol_semaphore d) (thread_patrol d)
    (is_enable_face_detect d) (is_snapshot d) (command_semaphore d)
    (command_thread d) (threads d) (log d) (files d) (signals d).

Definition set_stop_event (v : bool) (d : Drone) : Drone :=
  mkDrone (speed d) (sock_open d) (wire d) (response d) v (listener_alive d) (patrol_alive d)
    (patrol_event d) (is_patrol d) (patrol_semaphore d) (thread_patrol d)
    (is_enable_face_detect d) (is_snapshot d) (command_semaphore d)
    (command_thread d) (threads d) (log d) (files d) (signals d).

Definition set_patrol_event (v : option bool) (d : Drone) : Drone :=
  mkDrone (speed d) (sock_open d) (wire d) (response d) (stop_event d)
    (listener_alive d) (patrol_alive d) v (is_patrol d) (patrol_semaphore d) (thread_patrol d)
    (is_enable_face_detect d) (is_snapshot d) (command_semaphore d)
    (command_thread d) (threads d) (log d) (files d) (signals d).

Definition set_is_patrol (v : bool) (d : Drone) : Drone :=
  mkDrone (speed d) (sock_open d) (wire d) (response d) (stop_event d)
    (listener_alive d) (patrol_alive d) (patrol_event d) v (patrol_semaphore d) (thread_patrol d)
    (is_enable_face_detect d) (is_snapshot d) (command_semaphore d)
    (command_thread d) (threads d) (log d) (files d) (signals d).

Definition set_patrol_semaphore (v : nat) (d : Drone) : Drone :=
  mkDrone (speed d) (sock_open d) (wire d) (response d) (stop_event d)
    (listener_alive d) (patrol_alive d) (patrol_event d) (is_patrol d) v (thread_patrol d)
    (is_enable_face_detect d) (is_snapshot d) (command_semaphore d)
    (command_thread d) (threads d) (log d) (files d) (signals d).

Definition set_thread_patrol (v : option Thread) (d : Drone) : Drone :=
  mkDrone (speed d) (sock_open d) (wire d) (response d) (stop_event d)
    (listener_alive d) (patrol_alive d) (patrol_event d) (is_patrol d) (patrol_semaphore d) v
    (is_enable_face_detect d) (is_snapshot d) (command_semaphore d)
    (command_thread d) (threads d) (log d) (files d) (signals d).

Definition set_is_enable_face_detect (v : bool) (d : Drone) : Drone :=
  mkDrone (speed d) (sock_open d) (wire d) (response d) (stop_event d)
    (listener_alive d) (patrol_alive d) (patrol_event d) (is_patrol d) (patrol_semaphore d)
    (thread_patrol d) v (is_snapshot d) (command_semaphore d)
    (command_thread d) (threads d) (log d) (files d) (signals d).

Definition set_is_snapshot (v : bool) (d : Drone) : Drone :=
  mkDrone (speed d) (sock_open d) (wire d) (response d) (stop_event d)
    (listener_alive d) (patrol_alive d) (patrol_event d) (is_patrol d) (patrol_semaphore d)
    (thread_patrol d) (is_enable_face_detect d) v (command_semaphore d)
    (command_thread d) (threads d) (log d) (files d) (signals d).

Definition set_command_semaphore (v : nat) (d : Drone) : Drone :=
  mkDrone (speed d) (sock_open d) (wire d) (response d) (stop_event d)
    (listener_alive d) (patrol_alive d) (patrol_event d) (is_patrol d) (patrol_semaphore d)
    (thread_patrol d) (is_enable_face_detect d) (is_snapshot d) v
    (command_thread d) (threads d) (log d) (files d) (signals d).

Definition set_command_thread (v : option Thread) (d : Drone) : Drone :=
  mkDrone (speed d) (sock_open d) (wire d) (response d) (stop_event d)
    (listener_alive d) (patrol_alive d) (patrol_event d) (is_patrol d) (patrol_semaphore d)
    (thread_patrol d) (is_enable_face_detect d) (is_snapshot d)
    (command_semaphore d) v (threads d) (log d) (files d) (signals d).

Definition set_threads (v : list Thread) (d : Drone) : Drone :=
  mkDrone (speed d) (sock_open d) (wire d) (response d) (stop_event d)
    (listener_alive d) (patrol_alive d) (patrol_event d) (is_patrol d) (patrol_semaphore d)
    (thread_patrol d) (is_enable_face_detect d) (is_snapshot d)
    (command_semaphore d) (command_thread d) v (log d) (files d) (signals d).

Definition set_log (v : list LogEntry) (d : Drone) : Drone :=
  mkDrone (speed d) (sock_open d) (wire d) (response d) (stop_event d)
    (listener_alive d) (patrol_alive d) (patrol_event d) (is_patrol d) (patrol_semaphore d)
    (thread_patrol d) (is_enable_face_detect d) (is_snapshot d)
    (command_semaphore d) (command_thread d) (threads d) v (files d) (signals d).

Definition set_files (v : list (string * Jpeg)) (d : Drone) : Drone :=
  mkDrone (speed d) (sock_open d) (wire d) (response d) (stop_event d)
    (listener_alive d) (patrol_alive d) (patrol_event d) (is_patrol d) (patrol_semaphore d)
    (thread_patrol d) (is_enable_face_detect d) (is_snapshot d)
    (command_semaphore d) (command_thread d) (threads d) (log d) v (signals d).

Definition set_signals (v : list string) (d : Drone) : Drone :=
  mkDrone (speed d) (sock_open d) (wire d) (response d) (stop_event d)
    (listener_alive d) (patrol_alive d) (patrol_event d) (is_patrol d) (patrol_semaphore d)
    (thread_patrol d) (is_enable_face_detect d) (is_snapshot d)
    (command_semaphore d) (command_thread d) (threads d) (log d) (files d) v.

(** What the rest of the program (response listener, frame loop, other
    dispatches) does to the object during the [k]-th sleep of a call. *)
Definition Env : Type := nat -> Drone -> Drone.

(** The result of running a method. *)
Record Run (A : Type) : Type := mkRun {
  outcome : Outcome A;
  final : Drone;
  sleeps : nat
}.
Arguments mkRun {A} _ _ _.
Arguments outcome {A} _.
Arguments final {A} _.
Arguments sleeps {A} _.

(** [logger.info], [logger.warning], [logger.error]. *)
Definition logger (l : Level) (action detail : string) (d : Drone) : Drone :=
  set_log (log d ++ [(l, action, detail)]) d.

(** [threading.Thread(target=...).start()]. *)
Definition start_thread (t : Thread) (d : Drone) : Drone :=
  set_threads (threads d ++ [t]) d.

(** [str(n)] for an integer, as an f-string renders it. *)
Definition str_of_Z (n : Z) : string := NilZero.string_of_int (Z.to_int n).

(** ** UTF-8 *)

Definition in_range (lo hi : N) (c : ascii) : bool :=
  ((lo <=? N_of_ascii c) && (N_of_ascii c <=? hi))%N.

Definition continuation (c : ascii) : bool := in_range 128 191 c.

(** Second byte of a three-byte sequence: no overlong forms, no surrogates. *)
Definition second_of_3 (c0 c1 : ascii) : bool :=
  if in_range 224 224 c0 then in_range 160 191 c1
  else if in_range 237 237 c0 then in_range 128 159 c1
  else continuation c1.

(** Second byte of a four-byte sequence: no overlong forms, at most U+10FFFF. *)
Definition second_of_4 (c0 c1 : ascii) : bool :=
  if in_range 240 240 c0 then in_range 144 191 c1
  else if in_range 244 244 c0 then in_range 128 143 c1
  else continuation c1.

Fixpoint utf8_valid (s : string) : bool :=
  match s with
  | EmptyString => true
  | String c0 s1 =>
      if in_range 0 127 c0 then utf8_valid s1
      else
        match s1 with
        | EmptyString => false
        | String c1 s2 =>
            if in_range 194 223 c0 then continuation c1 && utf8_valid s2
            else
              match s2 with
              | EmptyString => false
              | String c2 s3 =>
                  if in_range 224 239 c0
                  then second_of_3 c0 c1 && continuation c2 && utf8_valid s3
                  else
                    match s3 with
                    | EmptyString => false
                    | String c3 s4 =>
                        in_range 240 244 c0 && second_of_4 c0 c1
                        && continuation c2 && continuation c3 && utf8_valid s4
                    end
              end
        end
  end.

(** [bytes.decode('utf-8')]: the text when the bytes are well-formed UTF-8,
    UnicodeDecodeError otherwise. *)
Definition decode_utf8 (b : string) : option string :=
  if utf8_valid b then Some b else None.

(** ** The command channel *)

(** [send_command]: a new thread is made for [_send_command], stored in
    [self._command_thread] and started; the function body ends there, so the
    caller gets Python's None. *)
Definition send_command (command : string) (blocking : bool) (d : Drone)
  : Run (option string) :=
  let t := T_send_command command blocking in
  let d := set_command_thread (Some t) d in
  let d := start_thread t d in
  mkRun (Returned None) d 0.

(** [self._command_semaphore.release], the callback of the ExitStack. *)
Definition release_command (d : Drone) : Drone :=
  set_command_semaphore (S (command_semaphore d)) d.

(** [self.socket.sendto(command.encode('utf-8'), self.drone_address)]. *)
Definition sendto (command : string) (d : Drone) : Drone :=
  set_wire (wire d ++ [command]) d.

(** The polling loop of [_send_command]:
<<
    retry = 0
    while self.response is None:
        time.sleep(0.3)
        if retry > 3:
            break
        retry += 1
>>
    [k] counts the sleeps made so far.  [None] is fuel exhaustion. *)
Fixpoint wait_response (fuel : nat) (env : Env) (k : nat) (retry : Z) (d : Drone)
  : option (nat * Drone) :=
  match fuel with
  | O => None
  | S fuel' =>
      match response d with
      | Some _ => Some (k, d)
      | None =>
          let d := env k d in
          if retry >? 3 then Some (S k, d)
          else wait_response fuel' env (S k) (retry + 1) d
      end
  end.

(** [_send_command], the body run by the dispatch thread. *)
Definition _send_command (fuel : nat) (env : Env) (command : string)
  (blocking : bool) (d : Drone) : option (Run (option string)) :=
  match command_semaphore d with
  | S n =>
      (* is_acquire is True *)
      let d := set_command_semaphore n d in
      if supports_with ExitStack_instance then
        let d := logger INFO "_send_command" command d in
        if sock_open d then
          let d := sendto command d in
          match wait_response fuel env 0 0 d with
          | None => None
          | Some (k, d) =>
              match response d with
              | None =>
                  let d := set_response None d in
                  Some (mkRun (Returned None) (release_command d) k)
              | Some r =>
                  match decode_utf8 r with
                  | Some text =>
                      let d := set_response None d in
                      Some (mkRun (Returned (Some text)) (release_command d) k)
                  | None =>
                      Some (mkRun (Raised UnicodeDecodeError) (release_command d) k)
                  end
              end
          end
        else Some (mkRun (Raised OSError) (release_command d) 0)
      else Some (mkRun (Raised ContextManagerError) d 0)
  | O =>
      if blocking then Some (mkRun Waiting d 0)
      else
        let d := logger WARNING "_send_command" (command ++ " is_not_acquired") d in
        Some (mkRun (Returned None) d 0)
  end.

Definition set_speed (speed : Z) (d : Drone) : Run (option string) :=
  send_command ("speed " ++ str_of_Z speed) true d.

Definition clockwise (degree : Z) (d : Drone) : Run (option string) :=
  send_command ("cw " ++ str_of_Z degree) true d.

Definition counter_clockwise (degree : Z) (d : Drone) : Run (option string) :=
  send_command ("ccw " ++ str_of_Z degree) true d.

Definition flip_front (d : Drone) : Run (option string) := send_command "flip f" true d.
Definition flip_back (d : Drone) : Run (option string) := send_command "flip b" true d.
Definition flip_left (d : Drone) : Run (option string) := send_command "flip l" true d.
Definition flip_right (d : Drone) : Run (option string) := send_command "flip r" true d.
Definition takeoff (d : Drone) : Run (option string) := send_command "takeoff" true d.
Definition land (d : Drone) : Run (option string) := send_command "land" true d.

(** Python's [round] of a rational to an integer: to the nearest, a tie to
    the even neighbour. *)
Definition py_round (x : Q) : Z :=
  let n := Qfloor x in
  let twice_frac := Qfloor (2 * (x - inject_Z n))%Q in   (* 0 or 1 *)
  if (twice_frac =? 0)%Z then n
  else if Qeq_bool (2 * (x - inject_Z n)) 1 then (if Z.even n then n else n + 1)
  else n + 1.

(** The number a finite binary64 float stands for; None for a NaN and for
    the infinities. *)
Definition float_value (x : float) : option Q :=
  match Prim2SF x with
  | S754_zero _ => Some 0%Q
  | S754_finite sign mantissa exponent =>
      let q := (inject_Z (Zpos mantissa) * Qpower 2 exponent)%Q in
      Some (if sign then Qopp q else q)
  | S754_infinity _ => None
  | S754_nan => None
  end.

(** [int(round(x))] for a float [x]: the value of [x] rounded to the nearest
    integer, a tie to the even one; ValueError for a NaN, OverflowError for
    an infinity. *)
Definition int_round (x : float) : PyExc + Z :=
  match float_value x with
  | Some q => inr (py_round q)
  | None => if PrimFloat.is_nan x then inl ValueError else inl OverflowError
  end.

(** [move]: [distance = int(round(distance * 100))], the product being that
    of binary64 floats, then the command '<direction> <distance>'. *)
Definition move (move_direction : string) (distance : float) (d : Drone)
  : Run (option string) :=
  match int_round (distance * 100)%float with
  | inr distance =>
      send_command (move_direction ++ " " ++ str_of_Z distance) true d
  | inl e => mkRun (Raised e) d 0
  end.

Definition up (d : Drone) := move "up" DEFAULT_DISTANCE d.
Definition down (d : Drone) := move "down" DEFAULT_DISTANCE d.
Definition right (d : Drone) := move "right" DEFAULT_DISTANCE d.
Definition left (d : Drone) := move "left" DEFAULT_DISTANCE d.
Definition forward (d : Drone) := move "forward" DEFAULT_DISTANCE d.
Definition back (d : Drone) := move "back" DEFAULT_DISTANCE d.

(** ** Threads *)

(** The methods a [threading.Thread] object answers to ([isAlive] only before
    Python 3.9).  A call of any other name raises AttributeError, and so
    does any method call on None. *)
Definition Thread_methods : list string :=
  ["start"; "run"; "join"; "is_alive"; "isAlive"; "getName"; "setName";
   "isDaemon"; "setDaemon"].

Definition has_method (t : option Thread) (name : string) : bool :=
  match t with
  | None => false
  | Some _ => existsb (String.eqb name) Thread_methods
  end.

(** The join-by-polling loop of [stop] and [stop_patrol]:
<<
    retry = 0
    while <thread is alive>:
        time.sleep(0.3)
        if retry > 100:
            break
        retry += 1
>> *)
Fixpoint wait_thread (alive : Drone -> bool) (fuel : nat) (env : Env) (k : nat)
  (retry : Z) (d : Drone) : option (nat * Drone) :=
  match fuel with
  | O => None
  | S fuel' =>
      if alive d then
        let d := env k d in
        if retry >? 100 then Some (S k, d)
        else wait_thread alive fuel' env (S k) (retry + 1) d
      else Some (k, d)
  end.

(** ** The patrol controller *)

Definition patrol (d : Drone) : Run unit :=
  if negb (is_patrol d) then
    let d := set_thread_patrol (Some T_patrol) d in
    let d := start_thread T_patrol d in
    let d := set_is_patrol true d in
    mkRun (Returned tt) d 0
  else
    mkRun (Returned tt) (logger INFO "patrol" "is_patrolling_now" d) 0.

(** One pass through the body of the [while] of [_patrol], up to the sleep. *)
Definition patrol_step (change_status : Z) (d : Drone) : Z * Drone :=
  let change_status := change_status + 1 in
  let d := if (change_status =? 1)%Z then final (up d) else d in
  let d := if (change_status =? 2)%Z then final (forward d) else d in
  let d := if (change_status =? 3)%Z then final (back d) else d in
  let d := if (change_status =? 4)%Z then final (flip_left d) else d in
  let d := if (change_status =? 5)%Z then final (up d) else d in
  let change_status := if (change_status =? 6)%Z then 0 else change_status in
  (change_status, d).

(** [while not patrol_event.is_set(): ...; time.sleep(10)].  The parameter
    [patrol_event] of [_patrol] is [self.patrol_event] as [patrol] passed it;
    no statement of the class rebinds that attribute, so the loop reads the
    field. *)
Fixpoint patrol_loop (fuel : nat) (env : Env) (k : nat) (change_status : Z)
  (d : Drone) : option (Run unit) :=
  match fuel with
  | O => None
  | S fuel' =>
      match patrol_event d with
      | None => Some (mkRun (Raised AttributeError) d k)
      | Some true => Some (mkRun (Returned tt) d k)
      | Some false =>
          let (change_status, d) := patrol_step change_status d in
          patrol_loop fuel' env (S k) change_status (env k d)
      end
  end.

Definition release_patrol (d : Drone) : Drone :=
  set_patrol_semaphore (S (patrol_semaphore d)) d.

(** [_patrol], the body run by the patrol thread.  Its [with] statement is
    [with contextlib.ExitStack as stack:], on the class. *)
Definition _patrol (fuel : nat) (env : Env) (d : Drone) : option (Run unit) :=
  match patrol_semaphore d with
  | S n =>
      let d := set_patrol_semaphore n d in
      let d := logger INFO "_patrol" "acquired" d in
      if supports_with ExitStack_class then
        match patrol_loop fuel env 0 0 d with
        | None => None
        | Some r => Some (mkRun (outcome r) (release_patrol (final r)) (sleeps r))
        end
      else Some (mkRun (Raised ContextManagerError) d 0)
  | O =>
      Some (mkRun (Returned tt) (logger WARNING "_patrol" "not_acquire" d) 0)
  end.

(** [stop_patrol]: [self.patrol_event.set()], then the polling loop on
    [self._thread_patrol.is_Alive()], then [self.is_patrol = False]. *)
Definition stop_patrol (fuel : nat) (env : Env) (d : Drone) : option (Run unit) :=
  if is_patrol d then
    match patrol_event d with
    | None => Some (mkRun (Raised AttributeError) d 0)
    | Some _ =>
        let d := set_patrol_event (Some true) d in
        if has_method (thread_patrol d) "is_Alive" then
          match wait_thread patrol_alive fuel env 0 0 d with
          | None => None
          | Some (k, d) => Some (mkRun (Returned tt) (set_is_patrol false d) k)
          end
        else Some (mkRun (Raised AttributeError) d 0)
    end
  else Some (mkRun (Returned tt) d 0).

(** ** The frame producer *)

(** One call of [self.proc_stdout.read(FRAME_SIZE)]: it raises, or gives at
    most FRAME_SIZE bytes (none at end of stream). *)
Inductive ReadResult : Type :=
| ReadRaises
| ReadBytes (data : list byte).

(** The decoder's output: what the [n]-th read gives. *)
Definition Stdout : Type := nat -> ReadResult.

(** [np.fromstring(frame, np.uint8).reshape(FRAME_Y, FRAME_X, 3)]: ValueError
    unless the buffer has FRAME_Y * FRAME_X * 3 elements. *)
Definition reshape (data : list byte) : option Frame :=
  if (Z.of_nat (List.length data) =? FRAME_Y * FRAME_X * 3)%Z then Some data else None.

(** What one [next] on a generator gives. *)
Record Next (A : Type) : Type := mkNext {
  yielded : Outcome A;   (* Returned: the value yielded *)
  reads : nat;           (* reads of the decoder output made so far *)
  after : Drone
}.
Arguments mkNext {A} _ _ _.
Arguments yielded {A} _.
Arguments reads {A} _.
Arguments after {A} _.

(** [video_binary_generator], resumed with [pos] reads already made, up to
    its next [yield].  [None] is fuel exhaustion. *)
Fixpoint video_binary_generator (fuel : nat) (stdout : Stdout) (pos : nat)
  (d : Drone) : option (Next Frame) :=
  match fuel with
  | O => None
  | S fuel' =>
      match stdout pos with
      | ReadRaises =>
          let d := logger ERROR "video_binary_generator" "ex" d in
          video_binary_generator fuel' stdout (S pos) d
      | ReadBytes [] => video_binary_generator fuel' stdout (S pos) d
      | ReadBytes data =>
          match reshape data with
          | Some frame => Some (mkNext (Returned frame) (S pos) d)
          | None => Some (mkNext (Raised ValueError) (S pos) d)
          end
      end
  end.

(** ** The face tracker *)

Definition enable_face_detect (d : Drone) : Drone := set_is_enable_face_detect true d.
Definition disable_face_detect (d : Drone) : Drone := set_is_enable_face_detect false d.

(** A detection: (x, y, width, height), integers in pixels. *)
Definition Rect : Type := (Z * Z * Z * Z)%type.

Definition Qltb (a b : Q) : bool := negb (Qle_bool b a).

(** The geometry of lines 346-365.  The source computes in binary floating
    point; the offsets are integers plus halves of integers, which floats
    hold exactly, and an integer area divided by FRAME_AREA compares with
    0.30 and 0.02 as the exact quotient does (it equals the bound only at
    areas 23040 and 1536, where the division rounds to the very float that
    the literal denotes).  So the comparisons are those of the rationals. *)
Definition correction (face : Rect) : Z * Z * Z :=
  let '(x, y, width, height) := face in
  let face_center_x := (inject_Z x + inject_Z width / 2)%Q in
  let face_center_y := (inject_Z y + inject_Z height / 2)%Q in
  let diff_x := (FRAME_CENTER_X - face_center_x)%Q in
  let diff_y := (FRAME_CENTER_Y - face_center_y)%Q in
  let face_area := width * height in
  let percent_face := (inject_Z face_area / inject_Z FRAME_AREA)%Q in
  let drone_x := 0 in
  let drone_y := 0 in
  let drone_z := 0 in
  let drone_y := if Qltb diff_x (-30) then -30 else drone_y in
  let drone_y := if Qltb 30 diff_x then 30 else drone_y in
  let drone_z := if Qltb diff_y (-15) then -30 else drone_z in
  let drone_z := if Qltb 15 diff_y then 30 else drone_z in
  let drone_x := if Qltb 0.30 percent_face then -30 else drone_x in
  let drone_x := if Qltb percent_face 0.02 then 30 else drone_x in
  (drone_x, drone_y, drone_z).

(** [f'go {drone_x} {drone_y} {drone_z} {speed}']. *)
Definition go_command (drone_x drone_y drone_z speed : Z) : string :=
  "go " ++ str_of_Z drone_x ++ " " ++ str_of_Z drone_y ++ " "
        ++ str_of_Z drone_z ++ " " ++ str_of_Z speed.

Section Vision.

(** OpenCV, taken as given: the grayscale reduction, the cascade detector
    (with its arguments 1.3 and 6), the drawing of a rectangle and the JPEG
    encoder. *)
Variable cvtColor : Frame -> Frame.
Variable detectMultiScale : Frame -> list Rect.
Variable rectangle : Frame -> Rect -> Frame.
Variable imencode : Frame -> Jpeg.

(** Lines 340-368: detection, and the correction for the first face. *)
Definition detect_and_correct (frame : Frame) (d : Drone) : Frame * Drone :=
  let gray := cvtColor frame in
  let faces := detectMultiScale gray in
  match faces with
  | [] => (frame, d)
  | face :: _ =>
      let frame := rectangle frame face in
      let '(drone_x, drone_y, drone_z) := correction face in
      let d := final (send_command (go_command drone_x drone_y drone_z (speed d))
                                   false d) in
      (frame, d)
  end.

(** Lines 370-382: the encoding and the snapshot files.  [now] is
    [time.strftime("%Y%m%d-%H%M%S")]. *)
Definition encode_and_save (now : string) (frame : Frame) (d : Drone)
  : Jpeg * Drone :=
  let jpeg_binary := imencode frame in
  if is_snapshot d then
    let backup_file := now ++ ".jpg" in
    let snapshot_file := "snapshot.jpg" in
    let d := set_files (files d ++ [(SNAPSHOT_IMAGE_FOLDER ++ backup_file, jpeg_binary)]) d in
    let d := set_files (files d ++ [(SNAPSHOT_IMAGE_FOLDER ++ snapshot_file, jpeg_binary)]) d in
    (jpeg_binary, set_is_snapshot false d)
  else (jpeg_binary, d).

(** The body of the [for] of [video_jpeg_generator] for one frame. *)
Definition process_frame (fuel : nat) (env : Env) (now : string)
  (frame : Frame) (d : Drone) : option (Run Jpeg) :=
  if is_enable_face_detect d then
    let stopped :=
      if is_patrol d then stop_patrol fuel env d
      else Some (mkRun (Returned tt) d 0) in
    match stopped with
    | None => None
    | Some r =>
        match outcome r with
        | Returned _ =>
            let '(frame, d) := detect_and_correct frame (final r) in
            let '(jpeg_binary, d) := encode_and_save now frame d in
            Some (mkRun (Returned jpeg_binary) d (sleeps r))
        | Raised e => Some (mkRun (Raised e) (final r) (sleeps r))
        | Waiting => Some (mkRun Waiting (final r) (sleeps r))
        end
    end
  else
    let '(jpeg_binary, d) := encode_and_save now frame d in
    Some (mkRun (Returned jpeg_binary) d 0).

(** [video_jpeg_generator], resumed with [pos] reads already made, up to
    its next [yield]. *)
Definition video_jpeg_generator (fuel : nat) (env : Env) (stdout : Stdout)
  (now : string) (pos : nat) (d : Drone) : option (Next Jpeg) :=
  match video_binary_generator fuel stdout pos d with
  | None => None
  | Some n =>
      match yielded n with
      | Returned frame =>
          match process_frame fuel env now frame (after n) with
          | None => None
          | Some r => Some (mkNext (outcome r) (reads n) (final r))
          end
      | Raised e => Some (mkNext (Raised e) (reads n) (after n))
      | Waiting => Some (mkNext Waiting (reads n) (after n))
      end
  end.

End Vision.

(** ** The snapshot request *)

(** [while retry < 10: if not self.is_patrol: return True; time.sleep(0.5);
    retry += 1], then [return False]. *)
Fixpoint snapshot_loop (fuel : nat) (env : Env) (k : nat) (retry : Z) (d : Drone)
  : option (Run bool) :=
  match fuel with
  | O => None
  | S fuel' =>
      if (retry <? 10)%Z then
        if negb (is_patrol d) then Some (mkRun (Returned true) d k)
        else snapshot_loop fuel' env (S k) (retry + 1) (env k d)
      else Some (mkRun (Returned false) d k)
  end.

Definition snapshot (fuel : nat) (env : Env) (d : Drone) : option (Run bool) :=
  let d := set_is_snapshot true d in
  snapshot_loop fuel env 0 0 d.

(** ** Construction and shutdown *)

Section Shutdown.

(** The platform: whether the module [signal] has the attribute
    [CTRL_C_EVENT], which it has on Windows only. *)
Variable has_CTRL_C_EVENT : bool.

(** [os.kill(self.proc.pid, signal.CTRL_C_EVENT)] is the operating
    system's: given the signals the decoder was sent so far, it records
    one more or raises. *)
Variable os_kill : list string -> option (list string).

(** [stop].  The arguments of [os.kill] are evaluated before the call, so
    where [signal.CTRL_C_EVENT] is missing the last statement raises
    AttributeError and no signal is sent. *)
Definition stop (fuel : nat) (env : Env) (d : Drone) : option (Run unit) :=
  let d := set_stop_event true d in
  match wait_thread listener_alive fuel env 0 0 d with
  | None => None
  | Some (k, d) =>
      let d := set_sock_open false d in
      if has_CTRL_C_EVENT then
        match os_kill (signals d) with
        | Some sent => Some (mkRun (Returned tt) (set_signals sent d) k)
        | None => Some (mkRun (Raised OSError) d k)
        end
      else Some (mkRun (Raised AttributeError) d k)
  end.

(** [__del__] *)
Definition __del__ (fuel : nat) (env : Env) (d : Drone) : option (Run unit) :=
  stop fuel env d.

End Shutdown.

(** The object as [__init__] builds it, in the order of its statements; the
    two existence checks are [xml_exists] and [image_dir_exists]. *)
Definition __init__ (xml_exists image_dir_exists : bool) (speed : Z) : Run unit :=
  let d := {| speed := speed;
              sock_open := true;
              wire := [];
              response := None;
              stop_event := false;
              listener_alive := true;
              patrol_alive := false;
              patrol_event := None;
              is_patrol := false;
              patrol_semaphore := 1%nat;
              thread_patrol := None;
              is_enable_face_detect := false;
              is_snapshot := false;
              command_semaphore := 1%nat;
              command_thread := None;
              threads := [T_receive_response; T_receive_video];
              log := [];
              files := [];
              signals := [] |} in
  if negb xml_exists then mkRun (Raised ErrorNoFaceDetectXMLFile) d 0
  else if negb image_dir_exists then mkRun (Raised ErrorNoImageDir) d 0
  else
    let d := final (send_command "command" true d) in
    let d := final (send_command "streamon" true d) in
    let d := final (set_speed speed d) in
    mkRun (Returned tt) d 0.

(** A session that came up: both resources present, default speed. *)
Definition session : Drone := final (__init__ true true DEFAULT_SPEED).

(** ** The background receivers *)

(** What one [self.socket.recvfrom(3000)] gives: a datagram, or
    [socket.error]. *)
Inductive Recv : Type :=
| Datagram (data : string)
| SocketError.

(** Where a receiver loop stands once the given arrivals are consumed: it
    has left its [while], or it is blocked in the next receive. *)
Inductive Activity : Type :=
| Ended
| Receiving.

(** [receive_response_from_drone]: while the stop event is not set, receive
    and store.  [env k] is what the other threads do while receive number
    [k] blocks. *)
Fixpoint receive_response_from_drone (env : Env) (k : nat) (arrivals : list Recv)
  (d : Drone) : Activity * Drone :=
  if stop_event d then (Ended, d)
  else
    match arrivals with
    | [] => (Receiving, d)
    | a :: arrivals =>
        let d := env k d in
        match a with
        | Datagram data =>
            let d := set_response (Some data) d in
            let d := logger INFO "receive_response" data d in
            receive_response_from_drone env (S k) arrivals d
        | SocketError =>
            (Ended, logger ERROR "receive_response" "ex" d)
        end
    end.

(** What one round of [receive_video] meets: [recvfrom_into] times out,
    raises [socket.error], or fills the buffer with a packet, [data] being
    [data[:size]]; [accepted] tells whether the write to the decoder's input
    and its flush succeed. *)
Inductive VideoEvent : Type :=
| VideoTimeout
| VideoError
| VideoPacket (data : list byte) (accepted : bool).

(** [receive_video]; [pipe_in] is what the decoder's input has been given. *)
Fixpoint receive_video (env : Env) (k : nat) (events : list VideoEvent)
  (pipe_in : list byte) (d : Drone) : Activity * list byte * Drone :=
  if stop_event d then (Ended, pipe_in, d)
  else
    match events with
    | [] => (Receiving, pipe_in, d)
    | e :: events =>
        let d := env k d in
        match e with
        | VideoTimeout =>
            receive_video env (S k) events pipe_in
              (logger WARNING "receive_video" "ex" d)
        | VideoError => (Ended, pipe_in, logger ERROR "receive_video" "ex" d)
        | VideoPacket data true =>
            receive_video env (S k) events (pipe_in ++ data) d
        | VideoPacket data false =>
            (Ended, pipe_in, logger ERROR "receive_video" "ex" d)
        end
    end.

(** ** main.py *)

(** How the loop of main.py ends on the given input lines: on the line "q",
    or with the EOFError of [input()] when the lines run out. *)
Inductive MainEnd : Type :=
| Quit
| EndOfInput.

Fixpoint main_loop (lines : list string) (d : Drone) : MainEnd * Drone :=
  match lines with
  | [] => (EndOfInput, d)
  | args :: lines =>
      if String.eqb args "q" then (Quit, d)
      else main_loop lines (final (send_command args true d))
  end.

(** ** Environments and scenarios *)

(** The state after the first [k] sleeps of a call that started in [d]. *)
Fixpoint slept (env : Env) (k : nat) (d : Drone) : Drone :=
  match k with
  | O => d
  | S k' => env k' (slept env k' d)
  end.

(** No datagram is stored while the call sleeps. *)
Definition silent (env : Env) : Prop :=
  forall k s, response s = None -> response (env k s) = None.

(** The environment in which nothing else happens. *)
Definition idle : Env := fun _ s => s.

(** The listener stores [datagram] during the first sleep of the call. *)
Definition arrives (datagram : string) : Env :=
  fun k s => match k with
             | O => set_response (Some datagram) s
             | S _ => s
             end.

(** The object as the dispatch thread leaves it once the datagram is out:
    permit taken, the command logged and sent. *)
Definition dispatched (command : string) (d : Drone) : Drone :=
  sendto command
    (logger INFO "_send_command" command
       (set_command_semaphore (pred (command_semaphore d)) d)).

(** The session once [patrol] was called on it. *)
Definition patrolling : Drone := final (patrol session).

(** A session whose [patrol_event] is an Event, as [_patrol] and
    [stop_patrol] expect it; no statement of the class creates one. *)
Definition with_event : Drone := set_patrol_event (Some false) patrolling.

(** The patrol event is set during sleep number [k]. *)
Definition stop_during (k : nat) : Env :=
  fun j s => if Nat.eqb j k then set_patrol_event (Some true) s else s.

(** A decoder output whose every read gives the one byte 0. *)
Definition one_byte_reads : Stdout := fun _ => ReadBytes ["000"%byte].

(** A decoder output that fails once, is empty once, and then gives full
    black frames. *)
Definition recovering_reads : Stdout :=
  fun n => match n with
           | O => ReadRaises
           | S O => ReadBytes []
           | _ => ReadBytes (repeat "000"%byte (Z.to_nat FRAME_SIZE))
           end.

(** [d1] is [d] but for its log. *)
Definition after_log (d1 d : Drone) : Prop := d1 = set_log (log d1) d.

(** Another thread attempts a non-blocking dispatch of [command] during
    every sleep of the call. *)
Definition contender (command : string) : Env :=
  fun _ s => match _send_command 0 idle command false s with
             | Some r => final r
             | None => s
             end.

(** Every byte is below 128. *)
Fixpoint ascii_only (s : string) : bool :=
  match s with
  | EmptyString => true
  | String c s' => in_range 0 127 c && ascii_only s'
  end.

(** The bytes of a packet that the decoder accepted. *)
Definition payload (e : VideoEvent) : list byte :=
  match e with
  | VideoPacket data true => data
  | _ => []
  end.

(** A round after which [receive_video] goes on: a timeout or an accepted
    packet. *)
Definition goes_on (e : VideoEvent) : bool :=
  match e with
  | VideoTimeout => true
  | VideoPacket _ true => true
  | _ => false
  end.

(** No other thread sets the stop event. *)
Definition never_stopped (env : Env) : Prop :=
  forall k s, stop_event (env k s) = stop_event s.

(** The frame as the frame loop encodes it: with the first rectangle drawn
    when detection is enabled and finds one, as it was read otherwise. *)
Definition shown (cvtColor : Frame -> Frame) (detectMultiScale : Frame -> list Rect)
  (rectangle : Frame -> Rect -> Frame) (enabled : bool) (frame : Frame) : Frame :=
  if enabled then
    match detectMultiScale (cvtColor frame) with
    | [] => frame
    | face :: _ => rectangle frame face
    end
  else frame.

(** * Properties *)

(** ** Field lemmas *)

Lemma logger_fields l a t d :
  wire (logger l a t d) = wire d /\
  response (logger l a t d) = response d /\
  command_semaphore (logger l a t d) = command_semaphore d /\
  sock_open (logger l a t d) = sock_open d /\
  threads (logger l a t d) = threads d /\
  is_patrol (logger l a t d) = is_patrol d /\
  log (logger l a t d) = (log d ++ [(l, a, t)])%list.
Proof. repeat split. Qed.

Lemma send_command_spawns command blocking d :
  send_command command blocking d =
  mkRun (Returned None)
        (start_thread (T_send_command command blocking)
           (set_command_thread (Some (T_send_command command blocking)) d)) 0.
Proof. reflexivity. Qed.

Lemma threads_send_command command blocking d :
  threads (final (send_command command blocking d)) =
  (threads d ++ [T_send_command command blocking])%list.
Proof. reflexivity. Qed.

Lemma app_one_neq {A} (l : list A) (x : A) : (l ++ [x])%list <> l.
Proof.
  intro H. apply (f_equal (@List.length A)) in H.
  rewrite length_app in H. simpl in H. lia.
Qed.

(** ** The polling loop of the dispatch *)

Lemma wait_response_terminates fuel env :
  forall k retry d,
    0 <= retry <= 4 ->
    (Z.to_nat (5 - retry) <= fuel)%nat ->
    exists k' d', wait_response fuel env k retry d = Some (k', d')
                  /\ (k' <= k + Z.to_nat (5 - retry))%nat.
Proof.
  induction fuel as [|fuel IH]; intros k retry d Hr Hf.
  - exfalso. lia.
  - cbn [wait_response]. destruct (response d) eqn:E.
    + exists k, d. split; [reflexivity | lia].
    + destruct (Z.gtb_spec retry 3) as [G|G].
      * exists (S k), (env k d). split; [reflexivity | lia].
      * destruct (IH (S k) (retry + 1) (env k d)) as (k' & d' & H1 & H2);
          [lia | lia |].
        exists k', d'. split; [exact H1 | lia].
Qed.

Lemma wait_response_silent fuel env :
  silent env ->
  forall k retry d,
    0 <= retry <= 4 ->
    (Z.to_nat (5 - retry) <= fuel)%nat ->
    response d = None ->
    exists d', wait_response fuel env k retry d
               = Some ((k + Z.to_nat (5 - retry))%nat, d')
               /\ response d' = None.
Proof.
  intros Hs. induction fuel as [|fuel IH]; intros k retry d Hr Hf Hd.
  - exfalso. lia.
  - cbn [wait_response]. rewrite Hd. destruct (Z.gtb_spec retry 3) as [G|G].
    + exists (env k d). split.
      * f_equal. f_equal. lia.
      * apply Hs, Hd.
    + destruct (IH (S k) (retry + 1) (env k d)) as (d' & H1 & H2);
        [lia | lia | apply Hs, Hd |].
      exists d'. split; [| exact H2].
      rewrite H1. f_equal. f_equal. lia.
Qed.

(** The loop returns the object as it is after the sleeps it made, and the
    slot was empty at every poll before the last. *)
Lemma wait_response_slept fuel env d0 :
  forall k retry k' d',
    wait_response fuel env k retry (slept env k d0) = Some (k', d') ->
    d' = slept env k' d0 /\ (k <= k')%nat /\
    (forall j, (k <= j < k')%nat -> response (slept env j d0) = None).
Proof.
  induction fuel as [|fuel IH]; intros k retry k' d' H.
  - discriminate.
  - cbn [wait_response] in H. destruct (response (slept env k d0)) eqn:E.
    + inversion H; subst. repeat split; [lia | intros j Hj; lia].
    + destruct (Z.gtb_spec retry 3) as [G|G].
      * inversion H; subst. repeat split; [lia |].
        intros j Hj. assert (j = k) by lia. subst j. exact E.
      * change (env k (slept env k d0)) with (slept env (S k) d0) in H.
        apply IH in H. destruct H as (H1 & H2 & H3).
        repeat split; [exact H1 | lia |].
        intros j Hj. destruct (Nat.eq_dec j k) as [->|Hne]; [exact E |].
        apply H3. lia.
Qed.

(** Whatever arrives, a dispatch makes at most five sleeps. *)
Lemma _send_command_runs fuel env command blocking d :
  (5 <= fuel)%nat ->
  exists r, _send_command fuel env command blocking d = Some r
            /\ (sleeps r <= 5)%nat.
Proof.
  intros Hf. unfold _send_command.
  destruct (command_semaphore d) as [|n].
  - destruct blocking; eexists; split; try reflexivity; simpl; lia.
  - cbn [supports_with].
    destruct (sock_open _).
    + match goal with
      | |- context [wait_response fuel env 0 0 ?s] =>
          destruct (wait_response_terminates fuel env 0%nat 0 s)
            as (k & d' & Hw & Hk); [lia | simpl; lia |]; rewrite Hw
      end.
      simpl in Hk.
      destruct (response d'); [destruct (decode_utf8 s) |];
        eexists; split; try reflexivity; simpl; lia.
    + eexists; split; [reflexivity | simpl; lia].
Qed.

(** ** The command channel *)

(** C7: a non-blocking dispatch that finds the permit taken returns None at
    once, without a sleep; nothing is sent (the wire is as before), a
    warning is logged, nothing is raised, and no other attribute of the
    object changes. *)
Theorem nonblocking_dispatch_dropped fuel env command d :
  command_semaphore d = 0%nat ->
  exists r, _send_command fuel env command false d = Some r
    /\ outcome r = Returned None
    /\ sleeps r = 0%nat
    /\ wire (final r) = wire d
    /\ log (final r)
       = (log d ++ [(WARNING, "_send_command", (command ++ " is_not_acquired")%string)])%list
    /\ final r = set_log (log (final r)) d.
Proof.
  intros Hsem. unfold _send_command. rewrite Hsem.
  eexists. split; [reflexivity |]. repeat split.
Qed.

Lemma nonblocking_dispatch_dropped_witness :
  exists r, _send_command 0 idle "go 0 0 0 10" false
                          (set_command_semaphore 0 session) = Some r
    /\ outcome r = Returned None
    /\ sleeps r = 0%nat
    /\ wire (final r) = wire (set_command_semaphore 0 session)
    /\ log (final r)
       = (log (set_command_semaphore 0 session)
          ++ [(WARNING, "_send_command", "go 0 0 0 10 is_not_acquired")])%list
    /\ final r = set_log (log (final r)) (set_command_semaphore 0 session).
Proof.
  apply (nonblocking_dispatch_dropped 0 idle "go 0 0 0 10"
           (set_command_semaphore 0 session)).
  reflexivity.
Defined.

(** C6: a blocking dispatch that holds the permit and whose response slot
    stays empty ends: it sleeps exactly five times between polls of the slot
    and returns None ("no response"), with the command on the wire and the
    slot still empty. *)
Theorem blocking_dispatch_times_out fuel env command d n :
  (5 <= fuel)%nat ->
  command_semaphore d = S n ->
  sock_open d = true ->
  response d = None ->
  silent env ->
  exists r, _send_command fuel env command true d = Some r
    /\ outcome r = Returned None
    /\ sleeps r = 5%nat
    /\ response (final r) = None
    /\ final r = release_command (set_response None (slept env 5 (dispatched command d))).
Proof.
  intros Hf Hsem Hopen Hresp Hsilent.
  unfold _send_command. rewrite Hsem. cbn [supports_with].
  replace (sock_open _) with true by (symmetry; exact Hopen).
  assert (Hd : sendto command (logger INFO "_send_command" command
                                 (set_command_semaphore n d))
               = dispatched command d).
  { unfold dispatched. rewrite Hsem. reflexivity. }
  rewrite Hd.
  destruct (wait_response_silent fuel env Hsilent 0%nat 0 (dispatched command d))
    as (d' & Hw & Hnone); [lia | simpl; lia | exact Hresp |].
  rewrite Hw. simpl Nat.add.
  change (slept env 0 (dispatched command d)) with (dispatched command d) in *.
  pose proof (wait_response_slept fuel env (dispatched command d) 0%nat 0 _ _ Hw)
    as (Hs & _ & _).
  rewrite Hnone. eexists. split; [reflexivity |].
  simpl. repeat split. rewrite Hs. reflexivity.
Qed.

Lemma blocking_dispatch_times_out_witness :
  exists r, _send_command 5 idle "takeoff" true session = Some r
    /\ outcome r = Returned None
    /\ sleeps r = 5%nat
    /\ response (final r) = None
    /\ final r = release_command
                   (set_response None (slept idle 5 (dispatched "takeoff" session))).
Proof.
  apply (blocking_dispatch_times_out 5 idle "takeoff" session 0).
  - lia.
  - reflexivity.
  - reflexivity.
  - reflexivity.
  - intros k s H. exact H.
Defined.

Lemma wait_response_empty fuel env :
  forall k retry k' d d',
    0 <= retry <= 4 ->
    wait_response fuel env k retry d = Some (k', d') ->
    response d' = None ->
    k' = (k + Z.to_nat (5 - retry))%nat.
Proof.
  induction fuel as [|fuel IH]; intros k retry k' d d' Hr H Hnone.
  - discriminate.
  - cbn [wait_response] in H. destruct (response d) eqn:E.
    + inversion H; subst. congruence.
    + destruct (Z.gtb_spec retry 3) as [G|G].
      * inversion H; subst. lia.
      * apply IH in H; [lia | lia | exact Hnone].
Qed.

(** C2 as stated fails: the listener stores the datagram "ok" during the
    first sleep of the dispatch of "takeoff"; the dispatch thread obtains
    "ok", and the caller of [send_command] has received None. *)
Lemma send_command_discards_response :
  exists r, _send_command 5 (arrives "ok") "takeoff" true session = Some r
    /\ outcome r = Returned (Some "ok")
    /\ outcome (send_command "takeoff" true session) = Returned None
    /\ outcome (send_command "takeoff" true session) <> outcome r.
Proof.
  eexists. split; [reflexivity |].
  split; [reflexivity |]. split; [reflexivity |].
  simpl. discriminate.
Qed.

(** C2, amended: [send_command] hands the command to a new thread and
    returns None to its caller in every case, with nothing sent yet.  It is
    the thread's [_send_command] that, holding the permit on an open socket,
    ends within five sleeps on the first datagram it finds in the slot at a
    poll: bytes that are UTF-8 are returned decoded and the slot is cleared;
    bytes that are not raise UnicodeDecodeError and stay in the slot.  When
    the slot is empty at every poll it returns None, after five sleeps. *)
Theorem send_command_starts_dispatch command blocking d :
  outcome (send_command command blocking d) = Returned None
  /\ threads (final (send_command command blocking d))
     = (threads d ++ [T_send_command command blocking])%list
  /\ wire (final (send_command command blocking d)) = wire d
  /\ forall fuel env n,
       (5 <= fuel)%nat -> command_semaphore d = S n -> sock_open d = true ->
       exists r, _send_command fuel env command blocking d = Some r
         /\ (sleeps r <= 5)%nat
         /\ (forall j, (j < sleeps r)%nat ->
                       response (slept env j (dispatched command d)) = None)
         /\ match response (slept env (sleeps r) (dispatched command d)) with
            | Some b =>
                match decode_utf8 b with
                | Some text =>
                    outcome r = Returned (Some text) /\ response (final r) = None
                | None =>
                    outcome r = Raised UnicodeDecodeError
                    /\ response (final r) = Some b
                end
            | None =>
                outcome r = Returned None /\ sleeps r = 5%nat
                /\ response (final r) = None
            end.
Proof.
  split; [reflexivity |]. split; [reflexivity |]. split; [reflexivity |].
  intros fuel env n Hf Hsem Hopen.
  unfold _send_command. rewrite Hsem. cbn [supports_with].
  replace (sock_open _) with true by (symmetry; exact Hopen).
  assert (Hd : sendto command (logger INFO "_send_command" command
                                 (set_command_semaphore n d))
               = dispatched command d).
  { unfold dispatched. rewrite Hsem. reflexivity. }
  rewrite Hd. set (d1 := dispatched command d).
  destruct (wait_response_terminates fuel env 0%nat 0 d1)
    as (k & d' & Hw & Hk); [lia | simpl; lia |].
  rewrite Hw. simpl in Hk.
  pose proof (wait_response_slept fuel env d1 0%nat 0 k d' Hw) as (Hs & _ & Hbefore).
  destruct (response d') as [b|] eqn:E.
  - destruct (decode_utf8 b) as [text|] eqn:D.
    + eexists. split; [reflexivity |]. cbn [sleeps outcome final].
      split; [exact Hk |]. split; [intros j Hj; apply Hbefore; lia |].
      rewrite <- Hs, E, D. split; reflexivity.
    + eexists. split; [reflexivity |]. cbn [sleeps outcome final].
      split; [exact Hk |]. split; [intros j Hj; apply Hbefore; lia |].
      rewrite <- Hs, E, D. split; [reflexivity | exact E].
  - eexists. split; [reflexivity |]. cbn [sleeps outcome final].
    split; [exact Hk |]. split; [intros j Hj; apply Hbefore; lia |].
    rewrite <- Hs, E.
    pose proof (wait_response_empty fuel env 0%nat 0 k d1 d' ltac:(lia) Hw E) as Hk5.
    simpl in Hk5. repeat split. exact Hk5.
Qed.

Lemma send_command_starts_dispatch_witness :
  (exists r, _send_command 5 (arrives "ok") "takeoff" true session = Some r
     /\ (sleeps r <= 5)%nat
     /\ (forall j, (j < sleeps r)%nat ->
                   response (slept (arrives "ok") j (dispatched "takeoff" session)) = None)
     /\ match response (slept (arrives "ok") (sleeps r) (dispatched "takeoff" session)) with
        | Some b =>
            match decode_utf8 b with
            | Some text =>
                outcome r = Returned (Some text) /\ response (final r) = None
            | None =>
                outcome r = Raised UnicodeDecodeError /\ response (final r) = Some b
            end
        | None =>
            outcome r = Returned None /\ sleeps r = 5%nat
            /\ response (final r) = None
        end)
  /\ (exists r, _send_command 5 (arrives (String (ascii_of_nat 255) "")) "takeoff" true
                              session = Some r
        /\ outcome r = Raised UnicodeDecodeError
        /\ response (final r) = Some (String (ascii_of_nat 255) "")).
Proof.
  split.
  - apply (proj2 (proj2 (proj2
             (send_command_starts_dispatch "takeoff" true session))) 5%nat
             (arrives "ok") 0%nat); [lia | reflexivity | reflexivity].
  - destruct (proj2 (proj2 (proj2
                (send_command_starts_dispatch "takeoff" true session))) 5%nat
                (arrives (String (ascii_of_nat 255) "")) 0%nat
                ltac:(lia) eq_refl eq_refl) as (r & Hr & Hk & Hbefore & Hm).
    exists r. split; [exact Hr |].
    assert (Hsl : sleeps r = 1%nat).
    { vm_compute in Hr. injection Hr as <-. reflexivity. }
    rewrite Hsl in Hm. exact Hm.
Defined.

(** ** The patrol controller *)

(** With an Event in place the loop of [_patrol] submits up, forward, back,
    flip l, up and then makes a sixth pass that submits nothing: stopped
    during the fifth sleep or during the sixth, it has started the same
    threads. *)
Example patrol_loop_cycle :
  (exists r, patrol_loop 7 (stop_during 4) 0 0 with_event = Some r
     /\ sleeps r = 5%nat
     /\ threads (final r)
        = (threads with_event
           ++ [T_send_command "up 30" true; T_send_command "forward 30" true;
               T_send_command "back 30" true; T_send_command "flip l" true;
               T_send_command "up 30" true])%list)
  /\ (exists r, patrol_loop 7 (stop_during 5) 0 0 with_event = Some r
        /\ sleeps r = 6%nat
        /\ threads (final r)
           = (threads with_event
              ++ [T_send_command "up 30" true; T_send_command "forward 30" true;
                  T_send_command "back 30" true; T_send_command "flip l" true;
                  T_send_command "up 30" true])%list).
Proof.
  split; eexists; (split; [vm_compute; reflexivity |]); split; reflexivity.
Qed.

(** C1: the patrol thread does not reach its loop.  Whatever the object,
    [_patrol] ends without a sleep and without starting a dispatch: no
    thread is started and nothing is sent.  On a session on which [patrol]
    was called it takes the permit and raises at its [with] statement, the
    permit still taken. *)
Theorem patrol_thread_submits_nothing :
  (forall fuel env d,
      exists r, _patrol fuel env d = Some r
        /\ sleeps r = 0%nat
        /\ threads (final r) = threads d
        /\ wire (final r) = wire d)
  /\ (forall fuel env,
         _patrol fuel env patrolling
         = Some (mkRun (Raised ContextManagerError)
                       (logger INFO "_patrol" "acquired"
                          (set_patrol_semaphore 0 patrolling)) 0))
  /\ is_patrol patrolling = true
  /\ threads patrolling = (threads session ++ [T_patrol])%list.
Proof.
  split; [| split; [| split]]; try reflexivity.
  intros fuel env d. unfold _patrol.
  destruct (patrol_semaphore d); cbn [supports_with];
    eexists; (split; [reflexivity |]); repeat split.
Qed.

Lemma no_is_Alive (t : option Thread) : has_method t "is_Alive" = false.
Proof. destruct t; reflexivity. Qed.

Lemma stop_patrol_raises fuel env d :
  is_patrol d = true ->
  exists d', stop_patrol fuel env d = Some (mkRun (Raised AttributeError) d' 0)
    /\ is_patrol d' = true
    /\ threads d' = threads d
    /\ files d' = files d.
Proof.
  intros Hp. unfold stop_patrol. rewrite Hp.
  destruct (patrol_event d).
  - rewrite no_is_Alive. eexists. split; [reflexivity |]. repeat split. exact Hp.
  - eexists. split; [reflexivity |]. repeat split. exact Hp.
Qed.

(** C3: a frame taken up with face detection enabled while [is_patrol] is
    True does not stop the patrol: [stop_patrol] raises AttributeError, the
    frame loop ends with that exception before any detection, and
    [is_patrol] is still True. *)
Theorem face_detect_does_not_stop_patrol
  (cvtColor : Frame -> Frame) (detectMultiScale : Frame -> list Rect)
  (rectangle : Frame -> Rect -> Frame) (imencode : Frame -> Jpeg)
  fuel env now frame d :
  is_enable_face_detect d = true ->
  is_patrol d = true ->
  exists r, process_frame cvtColor detectMultiScale rectangle imencode
                          fuel env now frame d = Some r
    /\ outcome r = Raised AttributeError
    /\ is_patrol (final r) = true
    /\ threads (final r) = threads d
    /\ files (final r) = files d.
Proof.
  intros He Hp. unfold process_frame. rewrite He, Hp.
  destruct (stop_patrol_raises fuel env d Hp) as (d' & Hs & H1 & H2 & H3).
  rewrite Hs. cbn [outcome final sleeps].
  eexists. split; [reflexivity |]. cbn [outcome final]. repeat split; assumption.
Qed.

Lemma face_detect_does_not_stop_patrol_witness :
  exists r, process_frame (fun f => f) (fun _ => [(140, 100, 40, 40)])
                          (fun f _ => f) (fun f => f)
                          1 idle "20200101-000000" []
                          (enable_face_detect patrolling) = Some r
    /\ outcome r = Raised AttributeError
    /\ is_patrol (final r) = true
    /\ threads (final r) = threads (enable_face_detect patrolling)
    /\ files (final r) = files (enable_face_detect patrolling).
Proof.
  apply (face_detect_does_not_stop_patrol
           (fun f => f) (fun _ => [(140, 100, 40, 40)]) (fun f _ => f) (fun f => f)
           1 idle "20200101-000000" [] (enable_face_detect patrolling)).
  - reflexivity.
  - reflexivity.
Defined.

(** ** The frame producer *)

Lemma reshape_full (data : list byte) :
  Z.of_nat (List.length data) = FRAME_SIZE -> reshape data = Some data.
Proof.
  intros H. unfold reshape. rewrite H. reflexivity.
Qed.

(** C4 as stated fails: a read that gives one byte, short of a frame, is
    not retried; the reshape raises ValueError out of the generator. *)
Lemma short_read_raises :
  video_binary_generator 1 one_byte_reads 0 session
  = Some (mkNext (Raised ValueError) 1 session).
Proof. reflexivity. Qed.

(** C4, amended: reads that raise and reads that give no bytes (end of
    stream) are retried and nothing propagates: after [k] such reads the
    producer yields the frame of the next full read, [k + 1] reads having
    been made, and only the log of the object has changed. *)
Theorem failed_and_empty_reads_are_retried fuel stdout k frame :
  forall pos d,
    (forall i, (i < k)%nat ->
               stdout (pos + i)%nat = ReadRaises \/ stdout (pos + i)%nat = ReadBytes []) ->
    stdout (pos + k)%nat = ReadBytes frame ->
    Z.of_nat (List.length frame) = FRAME_SIZE ->
    (k < fuel)%nat ->
    exists n, video_binary_generator fuel stdout pos d = Some n
      /\ yielded n = Returned frame
      /\ reads n = S (pos + k)
      /\ after n = set_log (log (after n)) d.
Proof.
  revert fuel. induction k as [|k IH]; intros fuel pos d Hbad Hgood Hlen Hfuel.
  - destruct fuel as [|fuel]; [lia |].
    cbn [video_binary_generator]. rewrite Nat.add_0_r in Hgood. rewrite Hgood.
    destruct frame as [|b frame]; [vm_compute in Hlen; discriminate |].
    rewrite (reshape_full _ Hlen).
    eexists. split; [reflexivity |]. cbn [yielded reads after].
    repeat split; [f_equal; lia | destruct d; reflexivity].
  - destruct fuel as [|fuel]; [lia |].
    cbn [video_binary_generator].
    assert (Hnext : forall d1, after_log d1 d ->
              exists n, video_binary_generator fuel stdout (S pos) d1 = Some n
                /\ yielded n = Returned frame
                /\ reads n = S (pos + S k)
                /\ after n = set_log (log (after n)) d).
    { intros d1 Hd1.
      destruct (IH fuel (S pos) d1) as (n & H1 & H2 & H3 & H4).
      - intros i Hi. replace (S pos + i)%nat with (pos + S i)%nat by lia.
        apply Hbad. lia.
      - replace (S pos + k)%nat with (pos + S k)%nat by lia. exact Hgood.
      - exact Hlen.
      - lia.
      - exists n. repeat split; [exact H1 | exact H2 | rewrite H3; lia |].
        rewrite H4. rewrite Hd1. destruct d; reflexivity. }
    destruct (Hbad 0%nat ltac:(lia)) as [H0|H0];
      rewrite Nat.add_0_r in H0; rewrite H0; apply Hnext.
    + unfold after_log. destruct d; reflexivity.
    + unfold after_log. destruct d; reflexivity.
Qed.

Lemma failed_and_empty_reads_are_retried_witness :
  exists n, video_binary_generator 3 recovering_reads 0 session = Some n
    /\ yielded n = Returned (repeat "000"%byte (Z.to_nat FRAME_SIZE))
    /\ reads n = 3%nat
    /\ after n = set_log (log (after n)) session.
Proof.
  apply (failed_and_empty_reads_are_retried 3 recovering_reads 2
           (repeat "000"%byte (Z.to_nat FRAME_SIZE)) 0%nat session).
  - intros i Hi. destruct i as [|[|i]]; [left | right | lia]; reflexivity.
  - reflexivity.
  - rewrite repeat_length. vm_compute. reflexivity.
  - lia.
Defined.

(** While every read fails or is empty the producer keeps reading: it
    neither yields nor raises, whatever the fuel. *)
Lemma endless_bad_reads_never_end stdout :
  (forall i, stdout i = ReadRaises \/ stdout i = ReadBytes []) ->
  forall fuel pos d, video_binary_generator fuel stdout pos d = None.
Proof.
  intros Hbad. induction fuel as [|fuel IH]; intros pos d; [reflexivity |].
  cbn [video_binary_generator].
  destruct (Hbad pos) as [H|H]; rewrite H; apply IH.
Qed.

(** ** The face tracker *)

Lemma Qltb_lt (a b : Q) : Qltb a b = true <-> (a < b)%Q.
Proof.
  unfold Qltb. rewrite negb_true_iff. split; intros H.
  - apply Qnot_le_lt. intros Hle. apply Qle_bool_iff in Hle. congruence.
  - destruct (Qle_bool b a) eqn:E; [| reflexivity].
    apply Qle_bool_iff in E. exfalso. apply (Qlt_not_le _ _ H E).
Qed.

Lemma Qltb_ge (a b : Q) : Qltb a b = false <-> (b <= a)%Q.
Proof.
  unfold Qltb. rewrite negb_false_iff. apply Qle_bool_iff.
Qed.

Section VisionFacts.

Variable cvtColor : Frame -> Frame.
Variable detectMultiScale : Frame -> list Rect.
Variable rectangle : Frame -> Rect -> Frame.
Variable imencode : Frame -> Jpeg.

Lemma encode_and_save_threads now frame d :
  threads (snd (encode_and_save imencode now frame d)) = threads d.
Proof.
  unfold encode_and_save. destruct (is_snapshot d); reflexivity.
Qed.

(** With the patrol idle, a frame is processed without a sleep and the
    threads started are those of the detection step. *)
Lemma process_frame_idle fuel env now frame d :
  is_enable_face_detect d = true ->
  is_patrol d = false ->
  exists r, process_frame cvtColor detectMultiScale rectangle imencode
                          fuel env now frame d = Some r
    /\ sleeps r = 0%nat
    /\ threads (final r)
       = threads (snd (detect_and_correct cvtColor detectMultiScale rectangle
                                          frame d)).
Proof.
  intros He Hp. unfold process_frame.
  rewrite He, Hp. cbn [outcome final sleeps].
  destruct (detect_and_correct cvtColor detectMultiScale rectangle frame d)
    as [frame' d'] eqn:Edc.
  pose proof (encode_and_save_threads now frame' d') as Ht.
  destruct (encode_and_save imencode now frame' d') as [jpeg d''].
  eexists. split; [reflexivity |]. split; [reflexivity |]. exact Ht.
Qed.

Lemma detect_and_correct_threads frame d :
  threads (snd (detect_and_correct cvtColor detectMultiScale rectangle frame d))
  = match detectMultiScale (cvtColor frame) with
    | [] => threads d
    | face :: _ =>
        let '(drone_x, drone_y, drone_z) := correction face in
        (threads d
         ++ [T_send_command (go_command drone_x drone_y drone_z (speed d)) false])%list
    end.
Proof.
  unfold detect_and_correct.
  destruct (detectMultiScale (cvtColor frame)) as [|face rest]; [reflexivity |].
  destruct (correction face) as [[dx dy] dz]. reflexivity.
Qed.

End VisionFacts.

Lemma correction_left x y width height :
  (inject_Z x + inject_Z width / 2 < FRAME_CENTER_X - 30)%Q ->
  snd (fst (correction (x, y, width, height))) = 30.
Proof.
  intros H. unfold correction. cbn [fst snd].
  assert (H' : (30 < FRAME_CENTER_X - (inject_Z x + inject_Z width / 2))%Q) by lra.
  apply Qltb_lt in H'. rewrite H'. reflexivity.
Qed.

Lemma correction_large x y width height :
  (0.30 < inject_Z (width * height) / inject_Z FRAME_AREA)%Q ->
  fst (fst (correction (x, y, width, height))) = -30.
Proof.
  intros H. unfold correction. cbn [fst snd].
  assert (H' : Qltb (inject_Z (width * height) / inject_Z FRAME_AREA) 0.02 = false).
  { apply Qltb_ge. lra. }
  apply Qltb_lt in H. rewrite H, H'. reflexivity.
Qed.

Lemma correction_centred x y width height :
  (-30 <= FRAME_CENTER_X - (inject_Z x + inject_Z width / 2) <= 30)%Q ->
  (-15 <= FRAME_CENTER_Y - (inject_Z y + inject_Z height / 2) <= 15)%Q ->
  (0.02 <= inject_Z (width * height) / inject_Z FRAME_AREA <= 0.30)%Q ->
  correction (x, y, width, height) = (0, 0, 0).
Proof.
  intros [Hx1 Hx2] [Hy1 Hy2] [Ha1 Ha2]. unfold correction.
  apply Qltb_ge in Hx1, Hx2, Hy1, Hy2, Ha1, Ha2.
  rewrite Hx1, Hx2, Hy1, Hy2, Ha1, Ha2. reflexivity.
Qed.

(** C5: with face detection enabled and the patrol idle, a frame whose
    detector finds nothing starts no dispatch; otherwise exactly one
    non-blocking dispatch is handed over, of the text 'go <x> <y> <z>
    <speed>' whose three terms are the correction for the first rectangle.
    When that rectangle's centre lies more than 30 pixels left of the frame
    centre the text is 'go <x> 30 <z> <speed>'; when the rectangle covers
    more than 0.30 of the frame it is 'go -30 <y> <z> <speed>', a retreat. *)
Theorem face_correction_terms
  (cvtColor : Frame -> Frame) (detectMultiScale : Frame -> list Rect)
  (rectangle : Frame -> Rect -> Frame) (imencode : Frame -> Jpeg)
  fuel env now frame d :
  is_enable_face_detect d = true ->
  is_patrol d = false ->
  exists r, process_frame cvtColor detectMultiScale rectangle imencode
                          fuel env now frame d = Some r
    /\ match detectMultiScale (cvtColor frame) with
       | [] => threads (final r) = threads d
       | (x, y, width, height) :: _ =>
           exists drone_x drone_y drone_z,
             correction (x, y, width, height) = (drone_x, drone_y, drone_z)
             /\ threads (final r)
                = (threads d
                   ++ [T_send_command
                         ("go " ++ str_of_Z drone_x ++ " " ++ str_of_Z drone_y
                          ++ " " ++ str_of_Z drone_z ++ " " ++ str_of_Z (speed d))
                         false])%list
             /\ ((inject_Z x + inject_Z width / 2 < FRAME_CENTER_X - 30)%Q ->
                 drone_y = 30
                 /\ threads (final r)
                    = (threads d
                       ++ [T_send_command
                             ("go " ++ str_of_Z drone_x ++ " 30 "
                              ++ str_of_Z drone_z ++ " " ++ str_of_Z (speed d))
                             false])%list)
             /\ ((0.30 < inject_Z (width * height) / inject_Z FRAME_AREA)%Q ->
                 drone_x = -30
                 /\ threads (final r)
                    = (threads d
                       ++ [T_send_command
                             ("go -30 " ++ str_of_Z drone_y ++ " "
                              ++ str_of_Z drone_z ++ " " ++ str_of_Z (speed d))
                             false])%list)
       end.
Proof.
  intros He Hp.
  destruct (process_frame_idle cvtColor detectMultiScale rectangle imencode
              fuel env now frame d He Hp) as (r & Hr & _ & Ht).
  exists r. split; [exact Hr |].
  rewrite Ht, detect_and_correct_threads.
  destruct (detectMultiScale (cvtColor frame)) as [|[[[x y] width] height] rest];
    [reflexivity |].
  pose proof (correction_left x y width height) as Hl.
  pose proof (correction_large x y width height) as Hb.
  destruct (correction (x, y, width, height)) as [[dx dy] dz].
  cbn [fst snd] in Hl, Hb.
  exists dx, dy, dz. split; [reflexivity |]. split; [reflexivity |]. split.
  - intros H. rewrite (Hl H). split; reflexivity.
  - intros H. rewrite (Hb H). split; reflexivity.
Qed.

Lemma face_correction_terms_witness :
  (exists r, process_frame (fun f => f) (fun _ => [(0, 0, 200, 200)])
                           (fun f _ => f) (fun f => f)
                           0 idle "20200101-000000" []
                           (enable_face_detect session) = Some r
     /\ threads (final r)
        = (threads (enable_face_detect session)
           ++ [T_send_command "go -30 30 30 10" false])%list)
  /\ (exists r, process_frame (fun f => f) (fun _ => [])
                              (fun f _ => f) (fun f => f)
                              0 idle "20200101-000000" []
                              (enable_face_detect session) = Some r
        /\ threads (final r) = threads (enable_face_detect session)).
Proof.
  split.
  - destruct (face_correction_terms
                (fun f => f) (fun _ => [(0, 0, 200, 200)]) (fun f _ => f) (fun f => f)
                0 idle "20200101-000000" [] (enable_face_detect session)
                eq_refl eq_refl) as (r & Hr & dx & dy & dz & Hc & Ht & Hy & Hx).
    exists r. split; [exact Hr |].
    destruct (Hy ltac:(vm_compute; reflexivity)) as (Hdy & _).
    destruct (Hx ltac:(vm_compute; reflexivity)) as (Hdx & _).
    vm_compute in Hc. injection Hc as _ _ Hdz.
    rewrite Ht, Hdx, Hdy, <- Hdz. reflexivity.
  - apply (face_correction_terms
             (fun f => f) (fun _ => []) (fun f _ => f) (fun f => f)
             0 idle "20200101-000000" [] (enable_face_detect session)
             eq_refl eq_refl).
Defined.

(** C10: with face detection enabled and the patrol idle, a first rectangle
    within every band (offsets within 30 and 15 pixels, area between 0.02
    and 0.30 of the frame) still has a non-blocking command handed over, 'go
    0 0 0 <speed>'; no dispatch is started exactly when the detector finds
    nothing. *)
Theorem centred_face_still_dispatches
  (cvtColor : Frame -> Frame) (detectMultiScale : Frame -> list Rect)
  (rectangle : Frame -> Rect -> Frame) (imencode : Frame -> Jpeg)
  fuel env now frame d :
  is_enable_face_detect d = true ->
  is_patrol d = false ->
  exists r, process_frame cvtColor detectMultiScale rectangle imencode
                          fuel env now frame d = Some r
    /\ (threads (final r) = threads d <-> detectMultiScale (cvtColor frame) = [])
    /\ forall x y width height rest,
         detectMultiScale (cvtColor frame) = (x, y, width, height) :: rest ->
         (-30 <= FRAME_CENTER_X - (inject_Z x + inject_Z width / 2) <= 30)%Q ->
         (-15 <= FRAME_CENTER_Y - (inject_Z y + inject_Z height / 2) <= 15)%Q ->
         (0.02 <= inject_Z (width * height) / inject_Z FRAME_AREA <= 0.30)%Q ->
         threads (final r)
         = (threads d ++ [T_send_command ("go 0 0 0 " ++ str_of_Z (speed d)) false])%list.
Proof.
  intros He Hp.
  destruct (process_frame_idle cvtColor detectMultiScale rectangle imencode
              fuel env now frame d He Hp) as (r & Hr & _ & Ht).
  exists r. split; [exact Hr |].
  rewrite Ht, detect_and_correct_threads. split.
  - destruct (detectMultiScale (cvtColor frame)) as [|face rest].
    + split; reflexivity.
    + destruct (correction face) as [[dx dy] dz]. split; intros H.
      * exfalso. exact (app_one_neq _ _ H).
      * discriminate.
  - intros x y width height rest Hf Hx Hy Ha. rewrite Hf.
    rewrite (correction_centred x y width height Hx Hy Ha). reflexivity.
Qed.

Lemma centred_face_still_dispatches_witness :
  exists r, process_frame (fun f => f) (fun _ => [(140, 100, 40, 40)])
                          (fun f _ => f) (fun f => f)
                          0 idle "20200101-000000" []
                          (enable_face_detect session) = Some r
    /\ threads (final r)
       = (threads (enable_face_detect session)
          ++ [T_send_command "go 0 0 0 10" false])%list.
Proof.
  destruct (centred_face_still_dispatches
              (fun f => f) (fun _ => [(140, 100, 40, 40)]) (fun f _ => f) (fun f => f)
              0 idle "20200101-000000" [] (enable_face_detect session)
              eq_refl eq_refl) as (r & Hr & _ & Hc).
  exists r. split; [exact Hr |].
  apply (Hc 140 100 40 40 []).
  - reflexivity.
  - split; vm_compute; discriminate.
  - split; vm_compute; discriminate.
  - split; vm_compute; discriminate.
Defined.

(** ** The snapshot request *)





(** A request left pending is honoured by the next frame that is encoded:
    the two files are written and the flag is cleared. *)
Lemma pending_snapshot_is_honoured (imencode : Frame -> Jpeg) now frame d :
  is_snapshot d = true ->
  files (snd (encode_and_save imencode now frame d))
  = (files d ++ [((SNAPSHOT_IMAGE_FOLDER ++ now ++ ".jpg")%string, imencode frame);
                 ((SNAPSHOT_IMAGE_FOLDER ++ "snapshot.jpg")%string, imencode frame)])%list
  /\ is_snapshot (snd (encode_and_save imencode now frame d)) = false.
Proof.
  intros H. unfold encode_and_save. rewrite H. cbn [snd fst].
  split; [| reflexivity]. cbn. rewrite <- app_assoc. reflexivity.
Qed.

(** ** Shutdown *)

Lemma wait_thread_terminates alive fuel env :
  forall k retry d,
    0 <= retry <= 101 ->
    (Z.to_nat (102 - retry) <= fuel)%nat ->
    exists k' d', wait_thread alive fuel env k retry d = Some (k', d')
                  /\ (k' <= k + Z.to_nat (102 - retry))%nat.
Proof.
  induction fuel as [|fuel IH]; intros k retry d Hr Hf; [lia |].
  cbn [wait_thread]. destruct (alive d).
  - destruct (Z.gtb_spec retry 100) as [G|G].
    + exists (S k), (env k d). split; [reflexivity | lia].
    + destruct (IH (S k) (retry + 1) (env k d)) as (k' & d' & H1 & H2);
        [lia | lia |].
      exists k', d'. split; [exact H1 | lia].
  - exists k, d. split; [reflexivity | lia].
Qed.

(** [stop] ends within 102 sleeps with the socket closed; it returns when
    the platform has the signal and the operating system accepts it, and
    raises otherwise. *)
Lemma stop_bounded (has_CTRL_C_EVENT : bool)
  (os_kill : list string -> option (list string)) fuel env d :
  (102 <= fuel)%nat ->
  exists r, stop has_CTRL_C_EVENT os_kill fuel env d = Some r
    /\ (sleeps r <= 102)%nat
    /\ sock_open (final r) = false
    /\ (outcome r = Returned tt \/ outcome r = Raised OSError
        \/ outcome r = Raised AttributeError)
    /\ (has_CTRL_C_EVENT = true -> (forall sent, os_kill sent <> None) ->
        outcome r = Returned tt).
Proof.
  intros Hf. unfold stop.
  destruct (wait_thread_terminates listener_alive fuel env 0%nat 0
              (set_stop_event true d)) as (k & d' & Hw & Hk); [lia | simpl; lia |].
  rewrite Hw. simpl in Hk. cbn [signals set_sock_open].
  destruct has_CTRL_C_EVENT.
  - destruct (os_kill (signals d')) as [sent|] eqn:E.
    + eexists. split; [reflexivity |]. cbn [sleeps final outcome].
      repeat split; [exact Hk | left; reflexivity].
    + eexists. split; [reflexivity |]. cbn [sleeps final outcome].
      repeat split; [exact Hk | right; left; reflexivity |].
      intros _ Hok. exfalso. exact (Hok _ E).
  - eexists. split; [reflexivity |]. cbn [sleeps final outcome].
    repeat split; [exact Hk | right; right; reflexivity |].
    intros Hw'. discriminate.
Qed.

(** * Further properties of the code *)

(** ** The dispatch thread *)

Lemma slept_keeps {A : Type} (f : Drone -> A) env :
  (forall k s, f (env k s) = f s) ->
  forall k d, f (slept env k d) = f d.
Proof.
  intros Hkeep. induction k as [|k IH]; intros d; [reflexivity |].
  cbn [slept]. rewrite Hkeep. apply IH.
Qed.

Lemma dispatched_eq command d n :
  command_semaphore d = S n ->
  sendto command (logger INFO "_send_command" command (set_command_semaphore n d))
  = dispatched command d.
Proof. intros H. unfold dispatched. rewrite H. reflexivity. Qed.

(** The object a dispatch leaves behind, by what it found in the slot. *)
Lemma dispatch_final fuel env command blocking d n :
  (5 <= fuel)%nat ->
  command_semaphore d = S n ->
  sock_open d = true ->
  exists r, _send_command fuel env command blocking d = Some r
    /\ (sleeps r <= 5)%nat
    /\ match response (slept env (sleeps r) (dispatched command d)) with
       | None =>
           outcome r = Returned None /\ sleeps r = 5%nat
           /\ final r = release_command
                          (set_response None
                             (slept env (sleeps r) (dispatched command d)))
       | Some b =>
           match decode_utf8 b with
           | Some text =>
               outcome r = Returned (Some text)
               /\ final r = release_command
                              (set_response None
                                 (slept env (sleeps r) (dispatched command d)))
           | None =>
               outcome r = Raised UnicodeDecodeError
               /\ final r = release_command
                              (slept env (sleeps r) (dispatched command d))
           end
       end.
Proof.
  intros Hf Hsem Hopen.
  unfold _send_command. rewrite Hsem. cbn [supports_with].
  replace (sock_open _) with true by (symmetry; exact Hopen).
  rewrite (dispatched_eq command d n Hsem). set (d1 := dispatched command d).
  destruct (wait_response_terminates fuel env 0%nat 0 d1)
    as (k & d' & Hw & Hk); [lia | simpl; lia |].
  rewrite Hw. simpl in Hk.
  pose proof (wait_response_slept fuel env d1 0%nat 0 k d' Hw) as (Hs & _ & _).
  destruct (response d') as [b|] eqn:E.
  - destruct (decode_utf8 b) as [text|] eqn:D;
      eexists; (split; [reflexivity |]); cbn [sleeps outcome final];
      (split; [exact Hk |]); rewrite <- Hs, E, D; split; reflexivity.
  - eexists. split; [reflexivity |]. cbn [sleeps outcome final].
    split; [exact Hk |]. rewrite <- Hs, E.
    pose proof (wait_response_empty fuel env 0%nat 0 k d1 d' ltac:(lia) Hw E) as Hk5.
    simpl in Hk5. repeat split. exact Hk5.
Qed.

(** X1: a dispatch that took the permit gives it back on every way out:
    response, no response, undecodable response, or a closed socket.  When
    no other thread touches the semaphore meanwhile, its value after the
    call is its value before. *)
Theorem dispatch_releases_permit fuel env command blocking d n :
  (5 <= fuel)%nat ->
  command_semaphore d = S n ->
  (forall k s, command_semaphore (env k s) = command_semaphore s) ->
  exists r, _send_command fuel env command blocking d = Some r
    /\ outcome r <> Waiting
    /\ command_semaphore (final r) = command_semaphore d.
Proof.
  intros Hf Hsem Hkeep. destruct (sock_open d) eqn:Hopen.
  - destruct (dispatch_final fuel env command blocking d n Hf Hsem Hopen)
      as (r & Hr & _ & Hm).
    exists r. split; [exact Hr |].
    pose proof (slept_keeps command_semaphore env Hkeep (sleeps r)
                  (dispatched command d)) as Hk.
    assert (Hd : command_semaphore (dispatched command d) = n).
    { unfold dispatched. rewrite Hsem. reflexivity. }
    destruct (response (slept env (sleeps r) (dispatched command d))) as [b|].
    + destruct (decode_utf8 b); destruct Hm as (Ho & Hfin); rewrite Ho, Hfin;
        (split; [discriminate |]); cbn; cbn in Hk; rewrite Hk; cbn in Hd;
        rewrite Hd; symmetry; exact Hsem.
    + destruct Hm as (Ho & _ & Hfin). rewrite Ho, Hfin.
      split; [discriminate |]. cbn. cbn in Hk. rewrite Hk. cbn in Hd.
      rewrite Hd. symmetry. exact Hsem.
  - unfold _send_command. rewrite Hsem. cbn [supports_with].
    replace (sock_open _) with false by (symmetry; exact Hopen).
    eexists. split; [reflexivity |]. cbn [outcome final].
    split; [discriminate |]. reflexivity.
Qed.

Lemma dispatch_releases_permit_witness :
  exists r, _send_command 5 (arrives "ok") "land" false (set_sock_open false session)
            = Some r
    /\ outcome r <> Waiting
    /\ command_semaphore (final r) = command_semaphore (set_sock_open false session).
Proof.
  apply (dispatch_releases_permit 5 (arrives "ok") "land" false
           (set_sock_open false session) 0).
  - lia.
  - reflexivity.
  - intros k s. destruct k; reflexivity.
Defined.

Lemma ascii_only_valid (s : string) : ascii_only s = true -> utf8_valid s = true.
Proof.
  induction s as [|c s IH]; intros H; [reflexivity |].
  cbn [ascii_only] in H. apply andb_true_iff in H. destruct H as [Hc Hs].
  cbn [utf8_valid]. rewrite Hc. apply IH, Hs.
Qed.

(** X2: a datagram already in the slot when a dispatch starts is taken as
    the response to it: the command is sent, and without a sleep the
    dispatch returns the old datagram (here: plain ASCII, returned as it is)
    and clears the slot. *)
Theorem dispatch_takes_stale_response fuel env command blocking d n b :
  (1 <= fuel)%nat ->
  command_semaphore d = S n ->
  sock_open d = true ->
  response d = Some b ->
  ascii_only b = true ->
  exists r, _send_command fuel env command blocking d = Some r
    /\ outcome r = Returned (Some b)
    /\ sleeps r = 0%nat
    /\ wire (final r) = (wire d ++ [command])%list
    /\ response (final r) = None
    /\ final r = release_command (set_response None (dispatched command d)).
Proof.
  intros Hf Hsem Hopen Hresp Hascii.
  destruct fuel as [|fuel]; [lia |].
  unfold _send_command. rewrite Hsem. cbn [supports_with].
  replace (sock_open _) with true by (symmetry; exact Hopen).
  rewrite (dispatched_eq command d n Hsem).
  assert (Hd : response (dispatched command d) = Some b) by exact Hresp.
  cbn [wait_response]. rewrite Hd, Hd.
  unfold decode_utf8. rewrite (ascii_only_valid b Hascii).
  eexists. split; [reflexivity |]. repeat split.
Qed.

Lemma dispatch_takes_stale_response_witness :
  exists r, _send_command 1 idle "takeoff" true
                          (set_response (Some "error") session) = Some r
    /\ outcome r = Returned (Some "error")
    /\ sleeps r = 0%nat
    /\ wire (final r) = (wire (set_response (Some "error") session) ++ ["takeoff"])%list
    /\ response (final r) = None
    /\ final r = release_command
                   (set_response None
                      (dispatched "takeoff" (set_response (Some "error") session))).
Proof.
  apply (dispatch_takes_stale_response 1 idle "takeoff" true
           (set_response (Some "error") session) 0 "error");
    [lia | reflexivity | reflexivity | reflexivity | reflexivity].
Defined.

(** X3: bytes in the slot that are not UTF-8 make the dispatch raise
    UnicodeDecodeError after sending; the permit is given back but the slot
    is not cleared, so the object again meets the conditions under which
    the next dispatch raises in the same way. *)
Theorem dispatch_undecodable_response_stays fuel env command blocking d n b :
  (1 <= fuel)%nat ->
  command_semaphore d = S n ->
  sock_open d = true ->
  response d = Some b ->
  decode_utf8 b = None ->
  exists r, _send_command fuel env command blocking d = Some r
    /\ outcome r = Raised UnicodeDecodeError
    /\ sleeps r = 0%nat
    /\ wire (final r) = (wire d ++ [command])%list
    /\ response (final r) = Some b
    /\ command_semaphore (final r) = S n
    /\ sock_open (final r) = true.
Proof.
  intros Hf Hsem Hopen Hresp Hbad.
  destruct fuel as [|fuel]; [lia |].
  unfold _send_command. rewrite Hsem. cbn [supports_with].
  replace (sock_open _) with true by (symmetry; exact Hopen).
  rewrite (dispatched_eq command d n Hsem).
  assert (Hd : response (dispatched command d) = Some b) by exact Hresp.
  cbn [wait_response]. rewrite Hd, Hd, Hbad.
  eexists. split; [reflexivity |]. cbn [outcome sleeps final].
  repeat split; try assumption.
  unfold dispatched. rewrite Hsem. reflexivity.
Qed.

Lemma dispatch_undecodable_response_stays_witness :
  exists r, _send_command 1 idle "takeoff" true
              (set_response (Some (String (ascii_of_nat 255) "")) session) = Some r
    /\ outcome r = Raised UnicodeDecodeError
    /\ sleeps r = 0%nat
    /\ wire (final r)
       = (wire (set_response (Some (String (ascii_of_nat 255) "")) session)
          ++ ["takeoff"])%list
    /\ response (final r) = Some (String (ascii_of_nat 255) "")
    /\ command_semaphore (final r) = 1%nat
    /\ sock_open (final r) = true.
Proof.
  apply (dispatch_undecodable_response_stays 1 idle "takeoff" true
           (set_response (Some (String (ascii_of_nat 255) "")) session) 0
           (String (ascii_of_nat 255) ""));
    [lia | reflexivity | reflexivity | reflexivity | reflexivity].
Defined.

(** X4: once [stop] has run, on any platform and whether or not the signal
    to the decoder was accepted, no dispatch sends anything: a dispatch that gets the permit
    raises OSError on the closed socket before any wait, leaves the wire as
    it is and gives the permit back. *)
Theorem no_dispatch_after_stop (has_CTRL_C_EVENT : bool)
  (os_kill : list string -> option (list string)) fuel env d :
  (102 <= fuel)%nat ->
  exists r, stop has_CTRL_C_EVENT os_kill fuel env d = Some r
    /\ forall fuel' env' command blocking n,
         command_semaphore (final r) = S n ->
         exists r', _send_command fuel' env' command blocking (final r) = Some r'
           /\ outcome r' = Raised OSError
           /\ sleeps r' = 0%nat
           /\ wire (final r') = wire (final r)
           /\ command_semaphore (final r') = S n.
Proof.
  intros Hf.
  destruct (stop_bounded has_CTRL_C_EVENT os_kill fuel env d Hf)
    as (r & Hr & _ & Hclosed & _).
  exists r. split; [exact Hr |].
  intros fuel' env' command blocking n Hsem.
  unfold _send_command. rewrite Hsem. cbn [supports_with].
  replace (sock_open _) with false by (symmetry; exact Hclosed).
  eexists. split; [reflexivity |]. repeat split.
Qed.

Lemma no_dispatch_after_stop_witness :
  exists r r',
    stop true (fun sent => Some (sent ++ ["CTRL_C_EVENT"])%list) 102 idle session
    = Some r
    /\ _send_command 0 idle "land" true (final r) = Some r'
    /\ outcome r' = Raised OSError
    /\ sleeps r' = 0%nat
    /\ wire (final r') = wire (final r)
    /\ command_semaphore (final r') = 1%nat.
Proof.
  destruct (no_dispatch_after_stop true
              (fun sent => Some (sent ++ ["CTRL_C_EVENT"])%list) 102 idle session
              ltac:(lia)) as (r & Hr & Hafter).
  assert (Hsem : command_semaphore (final r) = 1%nat).
  { vm_compute in Hr. injection Hr as <-. reflexivity. }
  destruct (Hafter 0%nat idle "land" true 0%nat Hsem) as (r' & H1 & H2 & H3 & H4 & H5).
  exists r, r'. repeat split; assumption.
Defined.

Lemma contender_taken other k s :
  command_semaphore s = 0%nat ->
  contender other k s
  = logger WARNING "_send_command" (other ++ " is_not_acquired") s.
Proof.
  intros H. unfold contender, _send_command. rewrite H. reflexivity.
Qed.

Lemma contender_silent other : silent (contender other).
Proof.
  intros k s H. unfold contender, _send_command.
  destruct (command_semaphore s) as [|n]; [exact H |].
  cbn [supports_with]. destruct (sock_open _) eqn:E; [exact H |].
  exact H.
Qed.

Lemma slept_contender other d1 :
  command_semaphore d1 = 0%nat ->
  forall k,
    slept (contender other) k d1
    = set_log (log d1
               ++ repeat (WARNING, "_send_command", (other ++ " is_not_acquired")%string) k)%list
              d1.
Proof.
  intros H0. induction k as [|k IH].
  - cbn [slept repeat]. rewrite app_nil_r. destruct d1; reflexivity.
  - cbn [slept]. rewrite IH. rewrite contender_taken by exact H0.
    unfold logger. cbn [log set_log]. rewrite <- app_assoc.
    rewrite <- repeat_cons. destruct d1; reflexivity.
Qed.

(** X5: single flight.  While a dispatch polls for its response, every
    non-blocking dispatch that another thread attempts finds the permit
    taken: with one such attempt during each sleep, only the first command
    reaches the wire, each attempt leaves one warning in the log, and the
    permit is free again at the end. *)
Theorem contending_dispatches_send_nothing fuel command blocking other d :
  (5 <= fuel)%nat ->
  command_semaphore d = 1%nat ->
  sock_open d = true ->
  response d = None ->
  exists r, _send_command fuel (contender other) command blocking d = Some r
    /\ outcome r = Returned None
    /\ sleeps r = 5%nat
    /\ wire (final r) = (wire d ++ [command])%list
    /\ command_semaphore (final r) = 1%nat
    /\ log (final r)
       = (log d ++ (INFO, "_send_command", command)
            :: repeat (WARNING, "_send_command", (other ++ " is_not_acquired")%string) 5)%list.
Proof.
  intros Hf Hsem Hopen Hresp.
  destruct (dispatch_final fuel (contender other) command blocking d 0
              Hf Hsem Hopen) as (r & Hr & _ & Hm).
  assert (H0 : command_semaphore (dispatched command d) = 0%nat).
  { unfold dispatched. rewrite Hsem. reflexivity. }
  rewrite (slept_contender other _ H0) in Hm.
  assert (Hnone : response (dispatched command d) = None) by exact Hresp.
  cbn [response set_log] in Hm. cbn [response] in Hnone.
  change (response (dispatched command d)) with (response d) in Hm.
  rewrite Hresp in Hm. destruct Hm as (Ho & Hk & Hfin).
  exists r. split; [exact Hr |]. split; [exact Ho |]. split; [exact Hk |].
  rewrite Hfin, Hk. cbn. repeat split.
  - rewrite Hsem. reflexivity.
  - rewrite <- app_assoc. reflexivity.
Qed.

Lemma contending_dispatches_send_nothing_witness :
  exists r, _send_command 5 (contender "go 0 30 0 10") "takeoff" true session = Some r
    /\ outcome r = Returned None
    /\ sleeps r = 5%nat
    /\ wire (final r) = (wire session ++ ["takeoff"])%list
    /\ command_semaphore (final r) = 1%nat
    /\ log (final r)
       = (log session ++ (INFO, "_send_command", "takeoff")
            :: repeat (WARNING, "_send_command", "go 0 30 0 10 is_not_acquired") 5)%list.
Proof.
  apply (contending_dispatches_send_nothing 5 "takeoff" true "go 0 30 0 10" session);
    [lia | reflexivity | reflexivity | reflexivity].
Defined.

(** ** The patrol controller, further *)

Lemma patrol_again d :
  is_patrol d = true ->
  final (patrol d) = logger INFO "patrol" "is_patrolling_now" d.
Proof. intros H. unfold patrol. rewrite H. reflexivity. Qed.

(** X6: however often [patrol] is called on an idle session, one patrol
    thread is started, by the first call; every later call only logs. *)
Theorem patrol_starts_one_thread (calls : nat) d :
  is_patrol d = false ->
  let d' := Nat.iter (S calls) (fun s => final (patrol s)) d in
  threads d' = (threads d ++ [T_patrol])%list
  /\ is_patrol d' = true
  /\ thread_patrol d' = Some T_patrol
  /\ List.length (log d') = (List.length (log d) + calls)%nat.
Proof.
  intros Hidle. induction calls as [|calls IH].
  - cbn [Nat.iter nat_rect]. unfold patrol. rewrite Hidle. cbn.
    repeat split. lia.
  - cbn zeta in IH. destruct IH as (H1 & H2 & H3 & H4).
    cbn zeta. change (Nat.iter (S (S calls)) (fun s => final (patrol s)) d)
      with (final (patrol (Nat.iter (S calls) (fun s => final (patrol s)) d))).
    rewrite (patrol_again _ H2). cbn [threads logger set_log is_patrol thread_patrol log].
    repeat split; try assumption.
    rewrite length_app, H4. cbn. lia.
Qed.

Lemma patrol_starts_one_thread_witness :
  let d' := Nat.iter 3 (fun s => final (patrol s)) session in
  threads d' = (threads session ++ [T_patrol])%list
  /\ is_patrol d' = true
  /\ thread_patrol d' = Some T_patrol
  /\ List.length (log d') = (List.length (log session) + 2)%nat.
Proof.
  apply (patrol_starts_one_thread 2 session). reflexivity.
Defined.

(** X7: [stop_patrol] returns only when there is nothing to stop.  On an
    idle object it returns at once and changes nothing; on a patrolling one
    it raises AttributeError; in no case does it sleep or change
    [is_patrol]. *)
Theorem stop_patrol_returns_only_when_idle fuel env d :
  exists r, stop_patrol fuel env d = Some r
    /\ sleeps r = 0%nat
    /\ is_patrol (final r) = is_patrol d
    /\ threads (final r) = threads d
    /\ (outcome r = Returned tt <-> is_patrol d = false)
    /\ (outcome r = Raised AttributeError <-> is_patrol d = true)
    /\ (is_patrol d = false -> final r = d).
Proof.
  unfold stop_patrol. destruct (is_patrol d) eqn:Hp.
  - destruct (patrol_event d).
    + rewrite no_is_Alive. eexists. split; [reflexivity |].
      cbn [sleeps final outcome]. repeat split; try discriminate; try assumption.
    + eexists. split; [reflexivity |].
      cbn [sleeps final outcome]. repeat split; try discriminate; try assumption.
  - eexists. split; [reflexivity |].
    cbn [sleeps final outcome]. repeat split; try discriminate; try assumption.
Qed.

(** X8: the patrol permit is lost with the first patrol thread.  The thread
    that finds the permit free takes it and raises, without giving it back;
    a patrol thread started after that finds it taken, logs 'not_acquire'
    and returns, having started nothing. *)
Theorem patrol_permit_is_lost fuel env fuel' env' d :
  patrol_semaphore d = 1%nat ->
  exists r r',
    _patrol fuel env d = Some r
    /\ outcome r = Raised ContextManagerError
    /\ patrol_semaphore (final r) = 0%nat
    /\ _patrol fuel' env' (final r) = Some r'
    /\ outcome r' = Returned tt
    /\ patrol_semaphore (final r') = 0%nat
    /\ threads (final r') = threads d
    /\ log (final r')
       = (log d ++ [(INFO, "_patrol", "acquired"); (WARNING, "_patrol", "not_acquire")])%list.
Proof.
  intros Hsem. unfold _patrol at 1. rewrite Hsem. cbn [supports_with].
  eexists. eexists. split; [reflexivity |]. cbn [outcome final].
  split; [reflexivity |]. split; [reflexivity |].
  unfold _patrol. cbn [patrol_semaphore logger set_log set_patrol_semaphore].
  split; [reflexivity |]. cbn. repeat split. rewrite <- app_assoc. reflexivity.
Qed.

Lemma patrol_permit_is_lost_witness :
  exists r r',
    _patrol 3 idle patrolling = Some r
    /\ outcome r = Raised ContextManagerError
    /\ patrol_semaphore (final r) = 0%nat
    /\ _patrol 3 idle (final r) = Some r'
    /\ outcome r' = Returned tt
    /\ patrol_semaphore (final r') = 0%nat
    /\ threads (final r') = threads patrolling
    /\ log (final r')
       = (log patrolling
          ++ [(INFO, "_patrol", "acquired"); (WARNING, "_patrol", "not_acquire")])%list.
Proof.
  apply (patrol_permit_is_lost 3 idle 3 idle patrolling). reflexivity.
Defined.

(** ** The correction, further *)

(** X9: whatever the rectangle, each of the three terms of the correction
    is -30, 0 or 30. *)
Theorem correction_terms_are_steps (face : Rect) :
  let '(drone_x, drone_y, drone_z) := correction face in
  (drone_x = -30 \/ drone_x = 0 \/ drone_x = 30)
  /\ (drone_y = -30 \/ drone_y = 0 \/ drone_y = 30)
  /\ (drone_z = -30 \/ drone_z = 0 \/ drone_z = 30).
Proof.
  destruct face as [[[x y] width] height]. unfold correction.
  repeat match goal with
         | |- context [if ?b then _ else _] => destruct b
         end; repeat split; auto.
Qed.

(** X10: the other directions of the correction.  A rectangle whose centre
    is more than 30 pixels right of the frame centre gives the lateral term
    -30; a centre more than 15 pixels above the frame centre gives the
    vertical term 30, more than 15 below gives -30; a rectangle of less
    than 0.02 of the frame gives the forward term 30. *)
Theorem correction_other_directions x y width height :
  ((FRAME_CENTER_X + 30 < inject_Z x + inject_Z width / 2)%Q ->
   snd (fst (correction (x, y, width, height))) = -30)
  /\ ((inject_Z y + inject_Z height / 2 < FRAME_CENTER_Y - 15)%Q ->
      snd (correction (x, y, width, height)) = 30)
  /\ ((FRAME_CENTER_Y + 15 < inject_Z y + inject_Z height / 2)%Q ->
      snd (correction (x, y, width, height)) = -30)
  /\ ((inject_Z (width * height) / inject_Z FRAME_AREA < 0.02)%Q ->
      fst (fst (correction (x, y, width, height))) = 30).
Proof.
  unfold correction. cbn [fst snd]. repeat split; intros H.
  - assert (H1 : Qltb (FRAME_CENTER_X - (inject_Z x + inject_Z width / 2)) (-30) = true)
      by (apply Qltb_lt; lra).
    assert (H2 : Qltb 30 (FRAME_CENTER_X - (inject_Z x + inject_Z width / 2)) = false)
      by (apply Qltb_ge; lra).
    rewrite H1, H2. reflexivity.
  - assert (H1 : Qltb 15 (FRAME_CENTER_Y - (inject_Z y + inject_Z height / 2)) = true)
      by (apply Qltb_lt; lra).
    rewrite H1. reflexivity.
  - assert (H1 : Qltb (FRAME_CENTER_Y - (inject_Z y + inject_Z height / 2)) (-15) = true)
      by (apply Qltb_lt; lra).
    assert (H2 : Qltb 15 (FRAME_CENTER_Y - (inject_Z y + inject_Z height / 2)) = false)
      by (apply Qltb_ge; lra).
    rewrite H1, H2. reflexivity.
  - apply Qltb_lt in H. rewrite H. reflexivity.
Qed.

Lemma correction_other_directions_witness :
  snd (fst (correction (300, 220, 10, 10))) = -30
  /\ snd (correction (0, 0, 20, 20)) = 30
  /\ snd (correction (300, 220, 10, 10)) = -30
  /\ fst (fst (correction (300, 220, 10, 10))) = 30.
Proof.
  pose proof (correction_other_directions 300 220 10 10) as (Hr & _ & Hb & Hs).
  pose proof (correction_other_directions 0 0 20 20) as (_ & Ha & _ & _).
  split; [apply Hr; vm_compute; reflexivity |].
  split; [apply Ha; vm_compute; reflexivity |].
  split; [apply Hb; vm_compute; reflexivity |].
  apply Hs; vm_compute; reflexivity.
Defined.

(** ** The movement commands *)

Lemma py_round_near (x : Q) :
  (inject_Z (py_round x) - (1 # 2) <= x <= inject_Z (py_round x) + (1 # 2))%Q.
Proof.
  unfold py_round.
  pose proof (Qfloor_le x) as Hlo. pose proof (Qlt_floor x) as Hhi.
  rewrite inject_Z_plus in Hhi. change (inject_Z 1) with 1%Q in Hhi.
  set (n := Qfloor x) in *.
  pose proof (Qfloor_le (2 * (x - inject_Z n))) as Flo.
  pose proof (Qlt_floor (2 * (x - inject_Z n))) as Fhi.
  rewrite inject_Z_plus in Fhi. change (inject_Z 1) with 1%Q in Fhi.
  clearbody n.
  destruct (Z.eqb_spec (Qfloor (2 * (x - inject_Z n))) 0) as [E|E].
  - rewrite E in Fhi. change (inject_Z 0) with 0%Q in Fhi. split; lra.
  - assert (Hpos : (0 <= Qfloor (2 * (x - inject_Z n)))%Z).
    { change 0%Z with (Qfloor 0). apply Qfloor_resp_le. lra. }
    assert (Hone : (inject_Z 1 <= inject_Z (Qfloor (2 * (x - inject_Z n))))%Q).
    { rewrite <- Zle_Qle. lia. }
    change (inject_Z 1) with 1%Q in Hone.
    destruct (Qeq_bool (2 * (x - inject_Z n)) 1) eqn:T.
    + apply Qeq_bool_iff in T. destruct (Z.even n).
      * split; lra.
      * rewrite inject_Z_plus. change (inject_Z 1) with 1%Q. split; lra.
    + rewrite inject_Z_plus. change (inject_Z 1) with 1%Q. split; lra.
Qed.

Lemma py_round_whole (x : Q) (n : Z) : (x == inject_Z n)%Q -> py_round x = n.
Proof.
  intros H. pose proof (py_round_near x) as [Hlo Hhi].
  set (m := py_round x) in *.
  destruct (Z.lt_trichotomy m n) as [Hlt | [Heq | Hgt]]; [| exact Heq |].
  - exfalso. assert (Hq : (inject_Z (m + 1) <= inject_Z n)%Q)
      by (rewrite <- Zle_Qle; lia).
    rewrite inject_Z_plus in Hq. change (inject_Z 1) with 1%Q in Hq. lra.
  - exfalso. assert (Hq : (inject_Z (n + 1) <= inject_Z m)%Q)
      by (rewrite <- Zle_Qle; lia).
    rewrite inject_Z_plus in Hq. change (inject_Z 1) with 1%Q in Hq. lra.
Qed.

Lemma py_round_tie (x : Q) (n : Z) :
  (x == inject_Z n + (1 # 2))%Q -> Z.even (py_round x) = true.
Proof.
  intros H. unfold py_round.
  pose proof (Qfloor_le x) as Hlo. pose proof (Qlt_floor x) as Hhi.
  rewrite inject_Z_plus in Hhi. change (inject_Z 1) with 1%Q in Hhi.
  assert (Hn : Qfloor x = n).
  { destruct (Z.lt_trichotomy (Qfloor x) n) as [Hlt | [Heq | Hgt]]; [| exact Heq |].
    - exfalso. assert (Hq : (inject_Z (Qfloor x + 1) <= inject_Z n)%Q)
        by (rewrite <- Zle_Qle; lia).
      rewrite inject_Z_plus in Hq. change (inject_Z 1) with 1%Q in Hq. lra.
    - exfalso. assert (Hq : (inject_Z (n + 1) <= inject_Z (Qfloor x))%Q)
        by (rewrite <- Zle_Qle; lia).
      rewrite inject_Z_plus in Hq. change (inject_Z 1) with 1%Q in Hq. lra. }
  rewrite Hn.
  assert (Hone : (2 * (x - inject_Z n) == 1)%Q) by lra.
  rewrite (Qfloor_comp _ _ Hone). change (Qfloor 1) with 1.
  cbn [Z.eqb]. apply Qeq_bool_iff in Hone. rewrite Hone.
  destruct (Z.even n) eqn:E; [exact E |].
  replace (n + 1) with (Z.succ n) by lia.
  rewrite Z.even_succ, <- Z.negb_even, E. reflexivity.
Qed.

(** [move] at products that are ties, at the default distance, and at
    floats that are no numbers. *)
Example move_examples :
  threads (final (move "up" 0x1.a3d70a3d70a3ep-3%float session))
  = (threads session ++ [T_send_command "up 20" true])%list
  /\ threads (final (move "up" 0x1.3d70a3d70a3d7p-3%float session))
     = (threads session ++ [T_send_command "up 16" true])%list
  /\ threads (final (up session))
     = (threads session ++ [T_send_command "up 30" true])%list
  /\ move "up" nan session = mkRun (Raised ValueError) session 0
  /\ move "up" infinity session = mkRun (Raised OverflowError) session 0.
Proof. repeat split; vm_compute; reflexivity. Qed.

(** X11: [move] multiplies the distance by 100 as binary64 floats and
    rounds the product.  When the product is a number, [move] hands over
    one blocking dispatch of '<direction> <cm>' and sends nothing itself:
    [cm] is an integer within a half of the product, the product itself
    when that is whole and the even neighbour when the product lies halfway
    between two integers.  When the product is a NaN or an infinity, [move]
    raises ValueError or OverflowError and the object is as it was. *)
Theorem move_rounds_the_float_product move_direction distance d :
  match float_value (distance * 100)%float with
  | Some product =>
      exists cm,
        threads (final (move move_direction distance d))
        = (threads d ++ [T_send_command (move_direction ++ " " ++ str_of_Z cm) true])%list
        /\ wire (final (move move_direction distance d)) = wire d
        /\ outcome (move move_direction distance d) = Returned None
        /\ (inject_Z cm - (1 # 2) <= product <= inject_Z cm + (1 # 2))%Q
        /\ (forall n, (product == inject_Z n)%Q -> cm = n)
        /\ (forall n, (product == inject_Z n + (1 # 2))%Q -> Z.even cm = true)
  | None =>
      (outcome (move move_direction distance d) = Raised ValueError
       \/ outcome (move move_direction distance d) = Raised OverflowError)
      /\ final (move move_direction distance d) = d
      /\ sleeps (move move_direction distance d) = 0%nat
  end.
Proof.
  unfold move, int_round.
  destruct (float_value (distance * 100)%float) as [product|].
  - exists (py_round product).
    split; [reflexivity |]. split; [reflexivity |]. split; [reflexivity |].
    split; [apply py_round_near |].
    split; [intros n Hn; apply py_round_whole, Hn |].
    intros n Hn. apply (py_round_tie product n Hn).
  - destruct (PrimFloat.is_nan (distance * 100)%float); cbn [outcome final sleeps];
      repeat split; [left | right]; reflexivity.
Qed.

(** ** The background receivers *)

Lemma listener_nil env k d :
  stop_event d = false ->
  receive_response_from_drone env k [] d = (Receiving, d).
Proof. intros H. cbn [receive_response_from_drone]. rewrite H. reflexivity. Qed.

Lemma listener_datagram env k data arrivals d :
  stop_event d = false ->
  receive_response_from_drone env k (Datagram data :: arrivals) d
  = receive_response_from_drone env (S k) arrivals
      (logger INFO "receive_response" data (set_response (Some data) (env k d))).
Proof. intros H. cbn [receive_response_from_drone]. rewrite H. reflexivity. Qed.

(** X12: the response slot keeps one datagram, the last.  While the stop
    event is not set and the socket does not fail, the listener stores
    every datagram over the one before, consumed or not: after any run of
    arrivals the slot holds the latest, and the listener is receiving. *)
Theorem listener_keeps_last_datagram env arrivals data :
  never_stopped env ->
  (forall a, In a arrivals -> a <> SocketError) ->
  forall k d,
    stop_event d = false ->
    fst (receive_response_from_drone env k (arrivals ++ [Datagram data]) d) = Receiving
    /\ response (snd (receive_response_from_drone env k (arrivals ++ [Datagram data]) d))
       = Some data.
Proof.
  intros Hns. induction arrivals as [|a arrivals IH]; intros Hok k d Hd.
  - cbn [app]. rewrite (listener_datagram env k data [] d Hd).
    rewrite listener_nil; [split; reflexivity |].
    cbn. rewrite Hns. exact Hd.
  - destruct a as [data'|]; [| exfalso; apply (Hok SocketError); [left |]; reflexivity].
    cbn [app]. rewrite (listener_datagram env k data' _ d Hd).
    apply IH.
    + intros a Ha. apply Hok. right. exact Ha.
    + cbn. rewrite Hns. exact Hd.
Qed.

Lemma listener_keeps_last_datagram_witness :
  fst (receive_response_from_drone idle 0 ([Datagram "ok"; Datagram "error"] ++ [Datagram "ok"])
         session) = Receiving
  /\ response (snd (receive_response_from_drone idle 0
                      ([Datagram "ok"; Datagram "error"] ++ [Datagram "ok"]) session))
     = Some "ok".
Proof.
  apply (listener_keeps_last_datagram idle [Datagram "ok"; Datagram "error"] "ok").
  - intros k s. reflexivity.
  - intros a [Ha | [Ha | []]]; subst a; discriminate.
  - reflexivity.
Defined.

(** X13: a socket error ends the listener for good: what arrives after it
    is never looked at, so the object is left as the arrivals up to the
    error made it. *)
Theorem listener_ends_at_socket_error env before after :
  forall k d,
    receive_response_from_drone env k (before ++ SocketError :: after) d
    = receive_response_from_drone env k (before ++ [SocketError]) d
    /\ fst (receive_response_from_drone env k (before ++ SocketError :: after) d)
       = Ended.
Proof.
  induction before as [|a before IH]; intros k d.
  - cbn [app receive_response_from_drone]. destruct (stop_event d); split; reflexivity.
  - cbn [app receive_response_from_drone]. destruct (stop_event d); [split; reflexivity |].
    destruct a as [data|]; [apply IH | split; reflexivity].
Qed.

Lemma video_round env k e events pipe_in d :
  stop_event d = false ->
  goes_on e = true ->
  receive_video env k (e :: events) pipe_in d
  = receive_video env (S k) events (pipe_in ++ payload e)
      (match e with
       | VideoTimeout => logger WARNING "receive_video" "ex" (env k d)
       | _ => env k d
       end).
Proof.
  intros Hd He. cbn [receive_video]. rewrite Hd.
  destruct e as [| |data [|]]; try discriminate; cbn [payload].
  - rewrite app_nil_r. reflexivity.
  - reflexivity.
Qed.

Lemma video_last_round env k e events pipe_in d :
  stop_event d = false ->
  goes_on e = false ->
  receive_video env k (e :: events) pipe_in d
  = (Ended, pipe_in, logger ERROR "receive_video" "ex" (env k d)).
Proof.
  intros Hd He. cbn [receive_video]. rewrite Hd.
  destruct e as [| |data [|]]; try discriminate; reflexivity.
Qed.

Lemma video_round_not_stopped env k e d :
  never_stopped env ->
  stop_event d = false ->
  stop_event (match e with
              | VideoTimeout => logger WARNING "receive_video" "ex" (env k d)
              | _ => env k d
              end) = false.
Proof.
  intros Hns Hd. destruct e; cbn; rewrite Hns; exact Hd.
Qed.

(** X14: the video receiver forwards the stream byte for byte.  Over rounds
    that are timeouts or packets the decoder accepts, with the stop event
    not set, what the decoder's input has been given is the packets'
    bytes, in order of arrival and nothing else; a timeout adds nothing and
    does not end the receiver. *)
Theorem video_receiver_forwards_in_order env events :
  never_stopped env ->
  forallb goes_on events = true ->
  forall k pipe_in d,
    stop_event d = false ->
    fst (fst (receive_video env k events pipe_in d)) = Receiving
    /\ snd (fst (receive_video env k events pipe_in d))
       = (pipe_in ++ List.concat (map payload events))%list.
Proof.
  intros Hns. induction events as [|e events IH]; intros Hall k pipe_in d Hd.
  - cbn [receive_video]. rewrite Hd. cbn. rewrite app_nil_r. split; reflexivity.
  - cbn [forallb] in Hall. apply andb_true_iff in Hall. destruct Hall as [He Hrest].
    rewrite (video_round env k e events pipe_in d Hd He).
    destruct (IH Hrest (S k) (pipe_in ++ payload e)%list _
                 (video_round_not_stopped env k e d Hns Hd)) as [H1 H2].
    rewrite H1, H2. cbn [map List.concat]. rewrite app_assoc. split; reflexivity.
Qed.

Lemma video_receiver_forwards_in_order_witness :
  fst (fst (receive_video idle 0
              [VideoPacket ["001"%byte; "002"%byte] true; VideoTimeout;
               VideoPacket ["003"%byte] true] [] session)) = Receiving
  /\ snd (fst (receive_video idle 0
                 [VideoPacket ["001"%byte; "002"%byte] true; VideoTimeout;
                  VideoPacket ["003"%byte] true] [] session))
     = ([] ++ List.concat (map payload
                        [VideoPacket ["001"%byte; "002"%byte] true; VideoTimeout;
                         VideoPacket ["003"%byte] true]))%list.
Proof.
  apply (video_receiver_forwards_in_order idle
           [VideoPacket ["001"%byte; "002"%byte] true; VideoTimeout;
            VideoPacket ["003"%byte] true]).
  - intros k s. reflexivity.
  - reflexivity.
  - reflexivity.
Defined.

(** X15: a socket error, or a packet the decoder's input refuses, ends the
    video receiver: nothing of that round or of a later one is forwarded,
    so the decoder has been given the bytes of the packets before it. *)
Theorem video_receiver_ends_at_failure env before e after :
  never_stopped env ->
  forallb goes_on before = true ->
  goes_on e = false ->
  forall k pipe_in d,
    stop_event d = false ->
    fst (fst (receive_video env k (before ++ e :: after) pipe_in d)) = Ended
    /\ snd (fst (receive_video env k (before ++ e :: after) pipe_in d))
       = (pipe_in ++ List.concat (map payload before))%list
    /\ receive_video env k (before ++ e :: after) pipe_in d
       = receive_video env k (before ++ [e]) pipe_in d.
Proof.
  intros Hns. induction before as [|b before IH]; intros Hall He k pipe_in d Hd.
  - cbn [app]. rewrite !(video_last_round env k e _ pipe_in d Hd He).
    cbn. rewrite app_nil_r. repeat split.
  - cbn [forallb] in Hall. apply andb_true_iff in Hall. destruct Hall as [Hb Hrest].
    cbn [app]. rewrite !(video_round env k b _ pipe_in d Hd Hb).
    destruct (IH Hrest He (S k) (pipe_in ++ payload b)%list _
                 (video_round_not_stopped env k b d Hns Hd)) as (H1 & H2 & H3).
    rewrite H1, H2, H3. cbn [map List.concat]. rewrite app_assoc. repeat split.
Qed.

Lemma video_receiver_ends_at_failure_witness :
  fst (fst (receive_video idle 0
              ([VideoPacket ["001"%byte] true]
               ++ VideoPacket ["002"%byte] false :: [VideoPacket ["003"%byte] true])
              [] session)) = Ended
  /\ snd (fst (receive_video idle 0
                 ([VideoPacket ["001"%byte] true]
                  ++ VideoPacket ["002"%byte] false :: [VideoPacket ["003"%byte] true])
                 [] session))
     = ([] ++ List.concat (map payload [VideoPacket ["001"%byte] true]))%list
  /\ receive_video idle 0
       ([VideoPacket ["001"%byte] true]
        ++ VideoPacket ["002"%byte] false :: [VideoPacket ["003"%byte] true])
       [] session
     = receive_video idle 0
         ([VideoPacket ["001"%byte] true] ++ [VideoPacket ["002"%byte] false])
         [] session.
Proof.
  apply (video_receiver_ends_at_failure idle [VideoPacket ["001"%byte] true]
           (VideoPacket ["002"%byte] false) [VideoPacket ["003"%byte] true]).
  - intros k s. reflexivity.
  - reflexivity.
  - reflexivity.
  - reflexivity.
Defined.

(** ** The frame loop, further *)

(** X16: with face detection disabled a frame goes through untouched: the
    JPEG yielded is the encoding of the frame as it was read, no dispatch is
    started, the patrol is left alone, there is no sleep, and the outcome
    does not depend on the detector. *)
Theorem disabled_detection_passes_frames_through
  (cvtColor cvtColor' : Frame -> Frame)
  (detectMultiScale detectMultiScale' : Frame -> list Rect)
  (rectangle rectangle' : Frame -> Rect -> Frame) (imencode : Frame -> Jpeg)
  fuel env now frame d :
  is_enable_face_detect d = false ->
  exists r, process_frame cvtColor detectMultiScale rectangle imencode
                          fuel env now frame d = Some r
    /\ outcome r = Returned (imencode frame)
    /\ sleeps r = 0%nat
    /\ threads (final r) = threads d
    /\ is_patrol (final r) = is_patrol d
    /\ process_frame cvtColor' detectMultiScale' rectangle' imencode
                     fuel env now frame d = Some r.
Proof.
  intros He. unfold process_frame. rewrite He. unfold encode_and_save.
  destruct (is_snapshot d); eexists; (split; [reflexivity |]); repeat split.
Qed.

Lemma disabled_detection_passes_frames_through_witness :
  exists r, process_frame (fun f => f) (fun _ => [(0, 0, 200, 200)])
                          (fun f _ => f) (fun f => f)
                          0 idle "20200101-000000" ["007"%byte] patrolling = Some r
    /\ outcome r = Returned ["007"%byte]
    /\ sleeps r = 0%nat
    /\ threads (final r) = threads patrolling
    /\ is_patrol (final r) = is_patrol patrolling
    /\ process_frame (fun f => []) (fun _ => []) (fun f _ => []) (fun f => f)
                     0 idle "20200101-000000" ["007"%byte] patrolling = Some r.
Proof.
  apply (disabled_detection_passes_frames_through
           (fun f => f) (fun f => []) (fun _ => [(0, 0, 200, 200)]) (fun _ => [])
           (fun f _ => f) (fun f _ => []) (fun f => f)
           0 idle "20200101-000000" ["007"%byte] patrolling).
  reflexivity.
Defined.

Lemma process_frame_saves
  (cvtColor : Frame -> Frame) (detectMultiScale : Frame -> list Rect)
  (rectangle : Frame -> Rect -> Frame) (imencode : Frame -> Jpeg)
  fuel env now frame d :
  is_patrol d = false ->
  exists r, process_frame cvtColor detectMultiScale rectangle imencode
                          fuel env now frame d = Some r
    /\ outcome r
       = Returned (imencode (shown cvtColor detectMultiScale rectangle
                                   (is_enable_face_detect d) frame))
    /\ sleeps r = 0%nat
    /\ is_snapshot (final r) = false
    /\ is_patrol (final r) = false
    /\ is_enable_face_detect (final r) = is_enable_face_detect d
    /\ files (final r)
       = if is_snapshot d
         then (files d
               ++ [((SNAPSHOT_IMAGE_FOLDER ++ now ++ ".jpg")%string,
                    imencode (shown cvtColor detectMultiScale rectangle
                                    (is_enable_face_detect d) frame));
                   ((SNAPSHOT_IMAGE_FOLDER ++ "snapshot.jpg")%string,
                    imencode (shown cvtColor detectMultiScale rectangle
                                    (is_enable_face_detect d) frame))])%list
         else files d.
Proof.
  intros Hp. unfold process_frame, shown.
  destruct (is_enable_face_detect d) eqn:He.
  - rewrite Hp. cbn [outcome final sleeps]. unfold detect_and_correct.
    destruct (detectMultiScale (cvtColor frame)) as [|face rest].
    + unfold encode_and_save. destruct (is_snapshot d) eqn:Hs;
        eexists; (split; [reflexivity |]); cbn [outcome final sleeps];
        repeat split; try assumption.
      cbn. rewrite <- app_assoc. reflexivity.
    + destruct (correction face) as [[dx dy] dz].
      unfold encode_and_save. cbn [is_snapshot send_command final start_thread
                                   set_threads set_command_thread].
      destruct (is_snapshot d) eqn:Hs;
        eexists; (split; [reflexivity |]); cbn [outcome final sleeps];
        repeat split; try assumption.
      cbn. rewrite <- app_assoc. reflexivity.
  - unfold encode_and_save. destruct (is_snapshot d) eqn:Hs;
      eexists; (split; [reflexivity |]); cbn [outcome final sleeps];
      repeat split; try assumption.
    cbn. rewrite <- app_assoc. reflexivity.
Qed.

(** X17: a snapshot requested while the patrol is idle is accepted at once,
    without a sleep, and written once.  Whether face detection is enabled
    or not, the next frame's JPEG, the one the frame loop yields (the frame
    with the first detection drawn on it when detection is enabled and
    finds one), is stored under '<timestamp>.jpg' and under 'snapshot.jpg'
    and the request is cleared, so the frame after it writes nothing. *)
Theorem snapshot_request_is_written_once
  (cvtColor : Frame -> Frame) (detectMultiScale : Frame -> list Rect)
  (rectangle : Frame -> Rect -> Frame) (imencode : Frame -> Jpeg)
  fuel env now1 frame1 now2 frame2 d :
  (1 <= fuel)%nat ->
  is_patrol d = false ->
  exists r0 r1 r2 jpeg1,
    snapshot fuel env d = Some r0
    /\ outcome r0 = Returned true
    /\ sleeps r0 = 0%nat
    /\ process_frame cvtColor detectMultiScale rectangle imencode
                     fuel env now1 frame1 (final r0) = Some r1
    /\ outcome r1 = Returned jpeg1
    /\ jpeg1 = imencode (shown cvtColor detectMultiScale rectangle
                                (is_enable_face_detect d) frame1)
    /\ files (final r1)
       = (files d
          ++ [((SNAPSHOT_IMAGE_FOLDER ++ now1 ++ ".jpg")%string, jpeg1);
              ((SNAPSHOT_IMAGE_FOLDER ++ "snapshot.jpg")%string, jpeg1)])%list
    /\ is_snapshot (final r1) = false
    /\ process_frame cvtColor detectMultiScale rectangle imencode
                     fuel env now2 frame2 (final r1) = Some r2
    /\ files (final r2) = files (final r1).
Proof.
  intros Hf Hp. destruct fuel as [|fuel]; [lia |].
  unfold snapshot. cbn [snapshot_loop]. cbn [is_patrol set_is_snapshot].
  rewrite Hp. cbn [negb Z.ltb Z.compare].
  destruct (process_frame_saves cvtColor detectMultiScale rectangle imencode
              (S fuel) env now1 frame1 (set_is_snapshot true d) Hp)
    as (r1 & Hr1 & Ho1 & _ & Hs1 & Hp1 & He1 & Hf1).
  destruct (process_frame_saves cvtColor detectMultiScale rectangle imencode
              (S fuel) env now2 frame2 (final r1) Hp1)
    as (r2 & Hr2 & _ & _ & _ & _ & _ & Hf2).
  rewrite Hs1 in Hf2.
  eexists. exists r1, r2. eexists.
  split; [reflexivity |]. cbn [outcome sleeps final].
  split; [reflexivity |]. split; [reflexivity |].
  split; [exact Hr1 |]. split; [exact Ho1 |]. split; [reflexivity |].
  split; [exact Hf1 |]. split; [exact Hs1 |]. split; [exact Hr2 | exact Hf2].
Qed.

Lemma snapshot_request_is_written_once_witness :
  exists r0 r1 r2 jpeg1,
    snapshot 1 idle (enable_face_detect session) = Some r0
    /\ outcome r0 = Returned true
    /\ sleeps r0 = 0%nat
    /\ process_frame (fun f => f) (fun _ => [(140, 100, 40, 40)])
                     (fun f _ => "255"%byte :: f) (fun f => f)
                     1 idle "20200101-000000" ["001"%byte] (final r0) = Some r1
    /\ outcome r1 = Returned jpeg1
    /\ jpeg1 = ["255"%byte; "001"%byte]
    /\ files (final r1)
       = (files (enable_face_detect session)
          ++ [((SNAPSHOT_IMAGE_FOLDER ++ "20200101-000000" ++ ".jpg")%string, jpeg1);
              ((SNAPSHOT_IMAGE_FOLDER ++ "snapshot.jpg")%string, jpeg1)])%list
    /\ is_snapshot (final r1) = false
    /\ process_frame (fun f => f) (fun _ => [(140, 100, 40, 40)])
                     (fun f _ => "255"%byte :: f) (fun f => f)
                     1 idle "20200101-000001" ["002"%byte] (final r1) = Some r2
    /\ files (final r2) = files (final r1).
Proof.
  apply (snapshot_request_is_written_once
           (fun f => f) (fun _ => [(140, 100, 40, 40)])
           (fun f _ => "255"%byte :: f) (fun f => f)
           1 idle "20200101-000000" ["001"%byte] "20200101-000001" ["002"%byte]
           (enable_face_detect session));
    [lia | reflexivity].
Defined.

Lemma binary_generator_bad_read fuel stdout pos d :
  stdout pos = ReadRaises \/ stdout pos = ReadBytes [] ->
  exists d', video_binary_generator (S fuel) stdout pos d
             = video_binary_generator fuel stdout (S pos) d'
    /\ d' = set_log (log d') d.
Proof.
  intros [H|H]; cbn [video_binary_generator]; rewrite H.
  - eexists. split; [reflexivity |]. destruct d; reflexivity.
  - exists d. split; [reflexivity |]. destruct d; reflexivity.
Qed.

Lemma binary_generator_full_read fuel stdout pos frame d :
  stdout pos = ReadBytes frame ->
  Z.of_nat (List.length frame) = FRAME_SIZE ->
  video_binary_generator (S fuel) stdout pos d
  = Some (mkNext (Returned frame) (S pos) d).
Proof.
  intros H Hlen. cbn [video_binary_generator]. rewrite H.
  destruct frame as [|b frame]; [vm_compute in Hlen; discriminate |].
  rewrite (reshape_full _ Hlen). reflexivity.
Qed.

Lemma binary_generator_skips stdout k frame :
  forall fuel pos d,
    (forall i, (i < k)%nat ->
               stdout (pos + i)%nat = ReadRaises \/ stdout (pos + i)%nat = ReadBytes []) ->
    stdout (pos + k)%nat = ReadBytes frame ->
    Z.of_nat (List.length frame) = FRAME_SIZE ->
    (k < fuel)%nat ->
    exists d', video_binary_generator fuel stdout pos d
               = Some (mkNext (Returned frame) (S (pos + k)) d')
      /\ d' = set_log (log d') d.
Proof.
  induction k as [|k IH]; intros fuel pos d Hbad Hgood Hlen Hfuel;
    (destruct fuel as [|fuel]; [lia |]).
  - rewrite Nat.add_0_r in Hgood. rewrite Nat.add_0_r.
    rewrite (binary_generator_full_read fuel stdout pos frame d Hgood Hlen).
    exists d. split; [reflexivity | destruct d; reflexivity].
  - destruct (binary_generator_bad_read fuel stdout pos d) as (d1 & Hstep & Hd1).
    { specialize (Hbad 0%nat ltac:(lia)). rewrite Nat.add_0_r in Hbad. exact Hbad. }
    destruct (IH fuel (S pos) d1) as (d' & H1 & H2).
    + intros i Hi. replace (S pos + i)%nat with (pos + S i)%nat by lia.
      apply Hbad. lia.
    + replace (S pos + k)%nat with (pos + S k)%nat by lia. exact Hgood.
    + exact Hlen.
    + lia.
    + exists d'. split.
      * rewrite Hstep, H1. do 3 f_equal. lia.
      * rewrite H2. rewrite Hd1. destruct d; reflexivity.
Qed.

(** X18: with face detection disabled and no snapshot pending, the JPEG
    generator skips reads that raise and reads that are empty, and yields
    the encoding of the next full frame; it starts no thread, writes no
    file and leaves all of the object but its log as it was. *)
Theorem jpeg_generator_yields_next_full_frame
  (cvtColor : Frame -> Frame) (detectMultiScale : Frame -> list Rect)
  (rectangle : Frame -> Rect -> Frame) (imencode : Frame -> Jpeg)
  fuel env now stdout pos k frame d :
  is_enable_face_detect d = false ->
  is_snapshot d = false ->
  (forall i, (i < k)%nat ->
             stdout (pos + i)%nat = ReadRaises \/ stdout (pos + i)%nat = ReadBytes []) ->
  stdout (pos + k)%nat = ReadBytes frame ->
  Z.of_nat (List.length frame) = FRAME_SIZE ->
  (k < fuel)%nat ->
  exists n, video_jpeg_generator cvtColor detectMultiScale rectangle imencode
                                 fuel env stdout now pos d = Some n
    /\ yielded n = Returned (imencode frame)
    /\ reads n = S (pos + k)
    /\ after n = set_log (log (after n)) d.
Proof.
  intros He Hs Hbad Hgood Hlen Hfuel.
  destruct (binary_generator_skips stdout k frame fuel pos d Hbad Hgood Hlen Hfuel)
    as (d' & Hgen & Hd').
  unfold video_jpeg_generator. rewrite Hgen. cbn [yielded after reads].
  unfold process_frame.
  replace (is_enable_face_detect d') with false by (rewrite Hd'; symmetry; exact He).
  unfold encode_and_save.
  replace (is_snapshot d') with false by (rewrite Hd'; symmetry; exact Hs).
  eexists. split; [reflexivity |]. cbn [yielded reads after outcome final].
  repeat split. exact Hd'.
Qed.

Lemma jpeg_generator_yields_next_full_frame_witness :
  exists n, video_jpeg_generator (fun f => f) (fun _ => []) (fun f _ => f)
                                 (fun f => firstn 2 f)
                                 3 idle recovering_reads "20200101-000000" 0 session
            = Some n
    /\ yielded n = Returned (firstn 2 (repeat "000"%byte (Z.to_nat FRAME_SIZE)))
    /\ reads n = 3%nat
    /\ after n = set_log (log (after n)) session.
Proof.
  apply (jpeg_generator_yields_next_full_frame
           (fun f => f) (fun _ => []) (fun f _ => f) (fun f => firstn 2 f)
           3 idle "20200101-000000" recovering_reads 0 2
           (repeat "000"%byte (Z.to_nat FRAME_SIZE)) session).
  - reflexivity.
  - reflexivity.
  - intros i Hi. destruct i as [|[|i]]; [left | right | lia]; reflexivity.
  - reflexivity.
  - rewrite repeat_length. vm_compute. reflexivity.
  - lia.
Defined.

(** X19: a read that gives some bytes, but not the FRAME_SIZE of a frame,
    ends the JPEG generator with ValueError: no frame is encoded, no file is written even
    when a snapshot is pending, and the object is as it was. *)
Theorem jpeg_generator_dies_on_partial_frame
  (cvtColor : Frame -> Frame) (detectMultiScale : Frame -> list Rect)
  (rectangle : Frame -> Rect -> Frame) (imencode : Frame -> Jpeg)
  fuel env now stdout pos data d :
  stdout pos = ReadBytes data ->
  data <> [] ->
  Z.of_nat (List.length data) <> FRAME_SIZE ->
  video_jpeg_generator cvtColor detectMultiScale rectangle imencode
                       (S fuel) env stdout now pos d
  = Some (mkNext (Raised ValueError) (S pos) d).
Proof.
  intros Hread Hne Hlen. unfold video_jpeg_generator.
  cbn [video_binary_generator]. rewrite Hread.
  destruct data as [|b data]; [congruence |].
  unfold reshape.
  destruct (Z.eqb_spec (Z.of_nat (List.length (b :: data))) (FRAME_Y * FRAME_X * 3))
    as [E|E]; [exfalso; apply Hlen; rewrite E; reflexivity |].
  reflexivity.
Qed.

Lemma jpeg_generator_dies_on_partial_frame_witness :
  video_jpeg_generator (fun f => f) (fun _ => []) (fun f _ => f) (fun f => f)
                       1 idle one_byte_reads "20200101-000000" 0
                       (set_is_snapshot true session)
  = Some (mkNext (Raised ValueError) 1 (set_is_snapshot true session)).
Proof.
  apply (jpeg_generator_dies_on_partial_frame
           (fun f => f) (fun _ => []) (fun f _ => f) (fun f => f)
           0 idle "20200101-000000" one_byte_reads 0 ["000"%byte]
           (set_is_snapshot true session)).
  - reflexivity.
  - discriminate.
  - vm_compute. discriminate.
Defined.

(** ** Shutdown, further *)

Lemma wait_thread_dead alive fuel env k retry d :
  alive d = false ->
  wait_thread alive (S fuel) env k retry d = Some (k, d).
Proof. intros H. cbn [wait_thread]. rewrite H. reflexivity. Qed.

Lemma wait_thread_never_dead alive fuel env d0 :
  (forall j, alive (slept env j d0) = true) ->
  forall k retry,
    0 <= retry <= 101 ->
    (Z.to_nat (102 - retry) <= fuel)%nat ->
    exists d', wait_thread alive fuel env k retry (slept env k d0)
               = Some ((k + Z.to_nat (102 - retry))%nat, d').
Proof.
  intros Halive. induction fuel as [|fuel IH]; intros k retry Hr Hf; [lia |].
  cbn [wait_thread]. rewrite (Halive k). destruct (Z.gtb_spec retry 100) as [G|G].
  - eexists. do 2 f_equal. lia.
  - change (env k (slept env k d0)) with (slept env (S k) d0).
    destruct (IH (S k) (retry + 1)) as (d' & H1); [lia | lia |].
    exists d'. rewrite H1. do 2 f_equal. lia.
Qed.

(** X20: [stop] waits for the listener by polling, with a ceiling.  On
    every platform it ends within 102 sleeps and has closed the socket by
    then.  If the listener is already dead it does not sleep: it sets the
    stop event and closes the socket at once; then, where [signal] has
    CTRL_C_EVENT (Windows), it signals the decoder, returning if the
    operating system accepts the signal and raising OSError if not, and
    elsewhere it raises AttributeError with no signal sent.  If the listener
    is alive at every poll it gives up after exactly 102 sleeps and closes
    the socket all the same. *)
Theorem stop_waits_with_a_ceiling (has_CTRL_C_EVENT : bool)
  (os_kill : list string -> option (list string)) fuel env d :
  (102 <= fuel)%nat ->
  exists r, stop has_CTRL_C_EVENT os_kill fuel env d = Some r
    /\ (sleeps r <= 102)%nat
    /\ sock_open (final r) = false
    /\ (listener_alive d = false ->
        sleeps r = 0%nat
        /\ stop_event (final r) = true
        /\ if has_CTRL_C_EVENT
           then match os_kill (signals d) with
                | Some sent => outcome r = Returned tt /\ signals (final r) = sent
                | None => outcome r = Raised OSError /\ signals (final r) = signals d
                end
           else outcome r = Raised AttributeError /\ signals (final r) = signals d)
    /\ ((forall j, listener_alive (slept env j (set_stop_event true d)) = true) ->
        sleeps r = 102%nat).
Proof.
  intros Hf. unfold stop.
  destruct (wait_thread_terminates listener_alive fuel env 0%nat 0
              (set_stop_event true d)) as (k & d' & Hw & Hk); [lia | simpl; lia |].
  rewrite Hw. simpl in Hk.
  assert (Hdead : listener_alive d = false -> k = 0%nat /\ d' = set_stop_event true d).
  { intros Hd. destruct fuel as [|fuel]; [lia |].
    rewrite wait_thread_dead in Hw by exact Hd. inversion Hw. split; reflexivity. }
  assert (Hnever : (forall j, listener_alive (slept env j (set_stop_event true d)) = true)
                   -> k = 102%nat).
  { intros Halive.
    destruct (wait_thread_never_dead listener_alive fuel env (set_stop_event true d)
                Halive 0%nat 0) as (d'' & Hw'); [lia | simpl; lia |].
    cbn [slept] in Hw'. rewrite Hw in Hw'. inversion Hw'. reflexivity. }
  destruct has_CTRL_C_EVENT.
  - destruct (os_kill (signals (set_sock_open false d'))) as [sent|] eqn:E;
      eexists; (split; [reflexivity |]); cbn [sleeps final outcome];
      (split; [exact Hk |]); (split; [reflexivity |]); (split; [| exact Hnever]);
      intros Hd; destruct (Hdead Hd) as [-> ->]; cbn in E; rewrite E;
      repeat split.
  - eexists. split; [reflexivity |]. cbn [sleeps final outcome].
    split; [exact Hk |]. split; [reflexivity |]. split; [| exact Hnever].
    intros Hd. destruct (Hdead Hd) as [-> ->]. repeat split.
Qed.

Lemma stop_waits_with_a_ceiling_witness :
  (exists r, stop true (fun sent => Some ("CTRL_C_EVENT" :: sent)) 102 idle session
             = Some r
     /\ (sleeps r <= 102)%nat
     /\ sock_open (final r) = false
     /\ sleeps r = 102%nat)
  /\ (exists r, stop false (fun sent => Some ("CTRL_C_EVENT" :: sent)) 102 idle session
                = Some r
        /\ (sleeps r <= 102)%nat
        /\ sock_open (final r) = false
        /\ sleeps r = 102%nat).
Proof.
  split.
  - destruct (stop_waits_with_a_ceiling true (fun sent => Some ("CTRL_C_EVENT" :: sent))
                102 idle session ltac:(lia)) as (r & Hr & Hk & Hc & _ & Hnever).
    exists r. split; [exact Hr |]. split; [exact Hk |]. split; [exact Hc |].
    apply Hnever. intros j. induction j as [|j IH]; [reflexivity | exact IH].
  - destruct (stop_waits_with_a_ceiling false (fun sent => Some ("CTRL_C_EVENT" :: sent))
                102 idle session ltac:(lia)) as (r & Hr & Hk & Hc & _ & Hnever).
    exists r. split; [exact Hr |]. split; [exact Hk |]. split; [exact Hc |].
    apply Hnever. intros j. induction j as [|j IH]; [reflexivity | exact IH].
Defined.

(** ** main.py *)

(** X21: the loop of main.py hands every line before the first "q" to
    [send_command] as a blocking dispatch, in order, and nothing after it;
    it sends nothing itself and, on "q", leaves without stopping the
    session: the stop event is not set and the socket is still open. *)
Theorem main_loop_dispatches_until_q before after d :
  ~ In "q" before ->
  fst (main_loop (before ++ "q" :: after) d) = Quit
  /\ fst (main_loop before d) = EndOfInput
  /\ snd (main_loop (before ++ "q" :: after) d) = snd (main_loop before d)
  /\ threads (snd (main_loop before d))
     = (threads d ++ map (fun args => T_send_command args true) before)%list
  /\ wire (snd (main_loop before d)) = wire d
  /\ stop_event (snd (main_loop before d)) = stop_event d
  /\ sock_open (snd (main_loop before d)) = sock_open d.
Proof.
  revert d. induction before as [|args before IH]; intros d Hq.
  - cbn. rewrite app_nil_r. repeat split.
  - assert (Hne : String.eqb args "q" = false).
    { apply String.eqb_neq. intros ->. apply Hq. left. reflexivity. }
    cbn [app main_loop]. rewrite Hne.
    destruct (IH (final (send_command args true d))) as (H1 & H2 & H3 & H4 & H5 & H6 & H7).
    { intros Hin. apply Hq. right. exact Hin. }
    rewrite H1, H2, H3, H4, H5, H6, H7. cbn [map].
    repeat split. cbn. rewrite <- app_assoc. reflexivity.
Qed.

Lemma main_loop_dispatches_until_q_witness :
  fst (main_loop (["takeoff"; "up 30"] ++ "q" :: ["land"]) session) = Quit
  /\ fst (main_loop ["takeoff"; "up 30"] session) = EndOfInput
  /\ snd (main_loop (["takeoff"; "up 30"] ++ "q" :: ["land"]) session)
     = snd (main_loop ["takeoff"; "up 30"] session)
  /\ threads (snd (main_loop ["takeoff"; "up 30"] session))
     = (threads session
        ++ map (fun args => T_send_command args true) ["takeoff"; "up 30"])%list
  /\ wire (snd (main_loop ["takeoff"; "up 30"] session)) = wire session
  /\ stop_event (snd (main_loop ["takeoff"; "up 30"] session)) = stop_event session
  /\ sock_open (snd (main_loop ["takeoff"; "up 30"] session)) = sock_open session.
Proof.
  apply (main_loop_dispatches_until_q ["takeoff"; "up 30"] ["land"] session).
  intros [H | [H | []]]; discriminate.
Defined.

(** ** The frame loop with detection enabled *)

(** X22: with face detection enabled and the patrol idle, the JPEG yielded
    is the encoding of the frame with the first rectangle drawn on it (of
    the frame as read when there is no detection; later rectangles are not
    drawn), and a pending snapshot stores that same image under both names
    and is cleared. *)
Theorem annotated_frame_is_yielded_and_saved
  (cvtColor : Frame -> Frame) (detectMultiScale : Frame -> list Rect)
  (rectangle : Frame -> Rect -> Frame) (imencode : Frame -> Jpeg)
  fuel env now frame d :
  is_enable_face_detect d = true ->
  is_patrol d = false ->
  let shown := match detectMultiScale (cvtColor frame) with
               | [] => frame
               | face :: _ => rectangle frame face
               end in
  exists r, process_frame cvtColor detectMultiScale rectangle imencode
                          fuel env now frame d = Some r
    /\ outcome r = Returned (imencode shown)
    /\ is_snapshot (final r) = false
    /\ files (final r)
       = if is_snapshot d
         then (files d
               ++ [((SNAPSHOT_IMAGE_FOLDER ++ now ++ ".jpg")%string, imencode shown);
                   ((SNAPSHOT_IMAGE_FOLDER ++ "snapshot.jpg")%string, imencode shown)])%list
         else files d.
Proof.
  intros He Hp shown. subst shown. unfold process_frame. rewrite He, Hp.
  cbn [outcome final sleeps]. unfold detect_and_correct.
  destruct (detectMultiScale (cvtColor frame)) as [|face rest].
  - unfold encode_and_save. destruct (is_snapshot d) eqn:Hs;
      eexists; (split; [reflexivity |]); cbn [outcome final];
      repeat split; try exact Hs.
    cbn. rewrite <- app_assoc. reflexivity.
  - destruct (correction face) as [[dx dy] dz].
    unfold encode_and_save. cbn [is_snapshot send_command final start_thread
                                 set_threads set_command_thread].
    destruct (is_snapshot d) eqn:Hs;
      eexists; (split; [reflexivity |]); cbn [outcome final];
      repeat split; try exact Hs.
    cbn. rewrite <- app_assoc. reflexivity.
Qed.

Lemma annotated_frame_is_yielded_and_saved_witness :
  exists r, process_frame (fun f => f) (fun _ => [(140, 100, 40, 40); (0, 0, 10, 10)])
                          (fun f _ => "255"%byte :: f) (fun f => f)
                          0 idle "20200101-000000" ["001"%byte]
                          (set_is_snapshot true (enable_face_detect session)) = Some r
    /\ outcome r = Returned ["255"%byte; "001"%byte]
    /\ is_snapshot (final r) = false
    /\ files (final r)
       = [((SNAPSHOT_IMAGE_FOLDER ++ "20200101-000000" ++ ".jpg")%string,
           ["255"%byte; "001"%byte]);
          ((SNAPSHOT_IMAGE_FOLDER ++ "snapshot.jpg")%string, ["255"%byte; "001"%byte])].
Proof.
  apply (annotated_frame_is_yielded_and_saved
           (fun f => f) (fun _ => [(140, 100, 40, 40); (0, 0, 10, 10)])
           (fun f _ => "255"%byte :: f) (fun f => f)
           0 idle "20200101-000000" ["001"%byte]
           (set_is_snapshot true (enable_face_detect session)));
    reflexivity.
Defined.

(** ** Two dispatches, one datagram *)

Lemma slept_idle k d : slept idle k d = d.
Proof. induction k as [|k IH]; [reflexivity | exact IH]. Qed.

Lemma dispatch_first_arrival fuel command blocking b d n :
  (2 <= fuel)%nat ->
  command_semaphore d = S n ->
  sock_open d = true ->
  response d = None ->
  ascii_only b = true ->
  _send_command fuel (arrives b) command blocking d
  = Some (mkRun (Returned (Some b))
                (release_command (set_response None (dispatched command d))) 1).
Proof.
  intros Hf Hsem Hopen Hresp Hascii.
  destruct fuel as [|[|fuel]]; [lia | lia |].
  unfold _send_command. rewrite Hsem. cbn [supports_with].
  replace (sock_open _) with true by (symmetry; exact Hopen).
  rewrite (dispatched_eq command d n Hsem).
  assert (Hd : response (dispatched command d) = None) by exact Hresp.
  cbn [wait_response]. rewrite Hd. cbn [arrives response set_response Z.gtb Z.compare].
  unfold decode_utf8. rewrite (ascii_only_valid b Hascii).
  reflexivity.
Qed.

(** X23: a datagram is the response of one dispatch only.  When a datagram
    arrives during the first sleep of a dispatch, that dispatch returns it
    after that one sleep and empties the slot; the next dispatch, with
    nothing arriving, polls an empty slot and returns None after five
    sleeps.  Both commands are on the wire, in order, and the permit is
    free. *)
Theorem response_is_consumed_once fuel command1 blocking1 command2 blocking2 b d n :
  (5 <= fuel)%nat ->
  command_semaphore d = S n ->
  sock_open d = true ->
  response d = None ->
  ascii_only b = true ->
  exists r1 r2,
    _send_command fuel (arrives b) command1 blocking1 d = Some r1
    /\ outcome r1 = Returned (Some b)
    /\ sleeps r1 = 1%nat
    /\ _send_command fuel idle command2 blocking2 (final r1) = Some r2
    /\ outcome r2 = Returned None
    /\ sleeps r2 = 5%nat
    /\ wire (final r2) = (wire d ++ [command1; command2])%list
    /\ command_semaphore (final r2) = S n.
Proof.
  intros Hf Hsem Hopen Hresp Hascii.
  rewrite (dispatch_first_arrival fuel command1 blocking1 b d n
             ltac:(lia) Hsem Hopen Hresp Hascii).
  eexists. cbn [outcome sleeps final].
  set (d1 := release_command (set_response None (dispatched command1 d))).
  assert (Hsem1 : command_semaphore d1 = S n).
  { unfold d1, dispatched. rewrite Hsem. reflexivity. }
  assert (Hopen1 : sock_open d1 = true) by exact Hopen.
  destruct (dispatch_final fuel idle command2 blocking2 d1 n Hf Hsem1 Hopen1)
    as (r2 & Hr2 & _ & Hm).
  rewrite slept_idle in Hm.
  change (response (dispatched command2 d1)) with (@None string) in Hm.
  destruct Hm as (Ho & Hk & Hfin).
  exists r2. split; [reflexivity |]. split; [reflexivity |]. split; [reflexivity |].
  split; [exact Hr2 |]. split; [exact Ho |]. split; [exact Hk |].
  rewrite Hfin. unfold dispatched. rewrite Hsem1. unfold d1, dispatched.
  rewrite Hsem. cbn. split; [rewrite <- app_assoc; reflexivity | reflexivity].
Qed.

Lemma response_is_consumed_once_witness :
  exists r1 r2,
    _send_command 5 (arrives "ok") "takeoff" true session = Some r1
    /\ outcome r1 = Returned (Some "ok")
    /\ sleeps r1 = 1%nat
    /\ _send_command 5 idle "land" true (final r1) = Some r2
    /\ outcome r2 = Returned None
    /\ sleeps r2 = 5%nat
    /\ wire (final r2) = (wire session ++ ["takeoff"; "land"])%list
    /\ command_semaphore (final r2) = 1%nat.
Proof.
  apply (response_is_consumed_once 5 "takeoff" true "land" true "ok" session 0);
    [lia | reflexivity | reflexivity | reflexivity | reflexivity].
Defined.
